(** * Qforia query fan-out simulator: prompt builder, response interpreter,
      result display and CSV export of [app.py].

    Python [str] values are represented by Rocq strings holding their UTF-8
    bytes (a lone surrogate, which Python allows in a [str], by its
    three-byte generalised encoding).  Every character the program inspects
    by itself (braces, quotes, commas, JSON punctuation, line breaks) is
    ASCII, and a UTF-8 byte below 128 never occurs inside a multi-byte
    character, so searching and splitting on those bytes agrees with the
    same operation on code points.

    The libraries the program calls are modelled as far as the program uses
    them: [str.strip] and [str.format], [re.search] for the one pattern of
    the program, [json.loads] with the default decoder, [pandas.DataFrame]
    for a list of records of text with [to_csv] in its default dialect, and
    the Streamlit calls as the list of calls made.  Limits of the Python
    run time (recursion depth, the number of digits [int] accepts) are not
    modelled, a [float] is kept as the text it was read from, and data
    [pandas] would have to convert is marked as outside the model. *)

From Stdlib Require Import String Ascii List ZArith NArith Bool Lia.
From Stdlib Require Import DecimalString DecimalZ DecimalN DecimalFacts.
Import ListNotations.
Open Scope string_scope.
Set Warnings "-register-all".

(** ** Python primitives used by the program *)
Module Py.

(** Double quote, and source text written with a backtick wherever the
    Python literal has a double quote. *)
Definition DQ : ascii := ascii_of_nat 34.

Fixpoint quoted (s : string) : string :=
  match s with
  | EmptyString => EmptyString
  | String c r => String (if Ascii.eqb c "`" then DQ else c) (quoted r)
  end.

(** [chr cp]: the one-character string of code point [cp], as UTF-8. *)
Definition byte (n : N) : ascii := ascii_of_N n.

Definition chr (cp : N) : string :=
  (if cp <? 128 then String (byte cp) EmptyString
   else if cp <? 2048 then
     String (byte (192 + cp / 64)) (String (byte (128 + cp mod 64)) EmptyString)
   else if cp <? 65536 then
     String (byte (224 + cp / 4096))
       (String (byte (128 + (cp / 64) mod 64))
          (String (byte (128 + cp mod 64)) EmptyString))
   else
     String (byte (240 + cp / 262144))
       (String (byte (128 + (cp / 4096) mod 64))
          (String (byte (128 + (cp / 64) mod 64))
             (String (byte (128 + cp mod 64)) EmptyString))))%N.

(** The code points for which [str.isspace] holds; [str.strip] with no
    argument removes exactly these. *)
Definition WHITESPACE_CODEPOINTS : list N :=
  [9; 10; 11; 12; 13; 28; 29; 30; 31; 32; 133; 160; 5760;
   8192; 8193; 8194; 8195; 8196; 8197; 8198; 8199; 8200; 8201; 8202;
   8232; 8233; 8239; 8287; 12288]%N.

Definition WHITESPACE : list string := map chr WHITESPACE_CODEPOINTS.

Definition is_whitespace (w : string) : bool :=
  existsb (String.eqb w) WHITESPACE.

Definition str1 (a : ascii) : string := String a EmptyString.
Definition str2 (a b : ascii) : string := String a (str1 b).
Definition str3 (a b c : ascii) : string := String a (str2 b c).

(** [s.lstrip()]: whitespace characters are one to three bytes long. *)
Fixpoint lstrip (s : string) : string :=
  match s with
  | EmptyString => s
  | String a r1 =>
      if is_whitespace (str1 a) then lstrip r1
      else
        match r1 with
        | EmptyString => s
        | String b r2 =>
            if is_whitespace (str2 a b) then lstrip r2
            else
              match r2 with
              | EmptyString => s
              | String c r3 =>
                  if is_whitespace (str3 a b c) then lstrip r3 else s
              end
        end
  end.

(** [s.isspace() or not s]: nothing is left once leading whitespace is
    removed. *)
Definition blank (s : string) : bool :=
  match lstrip s with EmptyString => true | _ => false end.

(** [s.rstrip()]: the longest whitespace-only suffix is dropped. *)
Fixpoint rstrip (s : string) : string :=
  match s with
  | EmptyString => EmptyString
  | String a r => if blank s then EmptyString else String a (rstrip r)
  end.

(** [s.strip()] *)
Definition strip (s : string) : string := rstrip (lstrip s).

(** [str(n)] for an [int]. *)
Definition str_int (z : Z) : string := NilEmpty.string_of_int (Z.to_int z).

(** Keyword arguments of a call. *)
Definition kwargs := list (string * string).

Fixpoint kw_get (name : string) (kw : kwargs) : option string :=
  match kw with
  | [] => None
  | (k, v) :: kw' => if String.eqb k name then Some v else kw_get name kw'
  end.

Definition is_name_char (c : ascii) : bool :=
  let n := nat_of_ascii c in
  ((65 <=? n) && (n <=? 90) || (97 <=? n) && (n <=? 122)
   || (48 <=? n) && (n <=? 57) || (n =? 95))%nat.

(** [str.format] called with keyword arguments only, for templates whose
    replacement fields are plain names: [{{] and [}}] stand for a brace,
    [{name}] for the value of the keyword argument.  [None] stands for the
    exception [str.format] raises (an unknown name, an unbalanced brace)
    and for fields this model does not cover (conversions, format specs, attribute or index access).
    [field] is the name read so far while inside a replacement field. *)
Fixpoint format_from (kw : kwargs) (field : option string) (t : string)
  : option string :=
  match t with
  | EmptyString =>
      match field with None => Some EmptyString | Some _ => None end
  | String c t' =>
      match field with
      | Some name =>
          if Ascii.eqb c "}" then
            match kw_get name kw with
            | Some v => option_map (append v) (format_from kw None t')
            | None => None
            end
          else if is_name_char c then
            format_from kw (Some (name ++ str1 c)) t'
          else None
      | None =>
          if Ascii.eqb c "{" then
            match t' with
            | String "{" t'' => option_map (String "{") (format_from kw None t'')
            | _ => format_from kw (Some EmptyString) t'
            end
          else if Ascii.eqb c "}" then
            match t' with
            | String "}" t'' => option_map (String "}") (format_from kw None t'')
            | _ => None
            end
          else option_map (String c) (format_from kw None t')
      end
  end.

Definition format (t : string) (kw : kwargs) : option string :=
  format_from kw None t.

(** *** Python objects: what [json.loads] returns and what the session
    state holds.  A [float] is kept as the text it was read from; a [dict]
    is the list of its items in insertion order, keys unique. *)
Inductive value : Type :=
| PyNone
| PyBool (b : bool)
| PyInt (z : Z)
| PyFloat (lexeme : string)
| PyStr (s : string)
| PyList (items : list value)
| PyDict (items : list (string * value)).

Definition dict := list (string * value).

Fixpoint dict_lookup (k : string) (d : dict) : option value :=
  match d with
  | [] => None
  | (k', v) :: d' => if String.eqb k' k then Some v else dict_lookup k d'
  end.

(** [d[k] = v]: an existing key keeps its place. *)
Fixpoint dict_set (k : string) (v : value) (d : dict) : dict :=
  match d with
  | [] => [(k, v)]
  | (k', v') :: d' =>
      if String.eqb k' k then (k', v) :: d' else (k', v') :: dict_set k v d'
  end.

(** [d.get(k, default)] *)
Definition dict_get (k : string) (default : value) (d : dict) : value :=
  match dict_lookup k d with Some v => v | None => default end.

(** [bool(v)]; the truth of a [float] depends on its rounded value, which
    this model does not compute. *)
Definition truthy (v : value) : option bool :=
  match v with
  | PyNone => Some false
  | PyBool b => Some b
  | PyInt z => Some (negb (z =? 0)%Z)
  | PyFloat _ => None
  | PyStr s => Some (negb (String.eqb s EmptyString))
  | PyList l => Some (match l with [] => false | _ => true end)
  | PyDict d => Some (match d with [] => false | _ => true end)
  end.

(** [len(v)], for the objects that have a length.  The length of a [str]
    counts code points: the bytes that do not continue a character. *)
Definition is_continuation (c : ascii) : bool :=
  let n := nat_of_ascii c in ((128 <=? n) && (n <? 192))%nat.

Fixpoint str_len (s : string) : nat :=
  match s with
  | EmptyString => 0
  | String c r => if is_continuation c then str_len r else S (str_len r)
  end.

Definition len (v : value) : option nat :=
  match v with
  | PyStr s => Some (str_len s)
  | PyList l => Some (List.length l)
  | PyDict d => Some (List.length d)
  | _ => None
  end.

(** [s.encode('utf-8')]: the bytes of [s], unless [s] holds a surrogate
    ([UnicodeEncodeError], here [None]).  A surrogate is the byte 237
    followed by a byte from 160 to 191. *)
Fixpoint has_surrogate (s : string) : bool :=
  match s with
  | EmptyString => false
  | String a r =>
      match r with
      | EmptyString => false
      | String b _ =>
          ((nat_of_ascii a =? 237) && (160 <=? nat_of_ascii b)
           && (nat_of_ascii b <=? 191))%nat
          || has_surrogate r
      end
  end.

Definition encode_utf8 (s : string) : option string :=
  if has_surrogate s then None else Some s.

End Py.

(** ** The fragment of [re] the program uses *)
Module Re.

(** A pattern is a sequence of atoms: a literal character, or [.*] compiled
    with [re.DOTALL] (any run of characters, longest first). *)
Inductive atom : Type :=
| Lit (c : ascii)
| AnyStar.

Definition pattern := list atom.

(** [match_here p s]: the length of the match of [p] at the start of [s]
    that the backtracking matcher finds first. *)
Fixpoint match_here (p : pattern) : string -> option nat :=
  match p with
  | [] => fun _ => Some 0
  | Lit c :: p' =>
      fun s =>
        match s with
        | EmptyString => None
        | String c' s' =>
            if Ascii.eqb c c' then option_map S (match_here p' s') else None
        end
  | AnyStar :: p' =>
      fix star (s : string) : option nat :=
        match s with
        | EmptyString => match_here p' EmptyString
        | String _ s' =>
            match star s' with
            | Some n => Some (S n)
            | None => match_here p' s
            end
        end
  end.

(** A match object: where the match starts and how long it is. *)
Record match_object : Type := { m_start : nat; m_length : nat }.

Fixpoint search_from (p : pattern) (pos : nat) (s : string)
  : option match_object :=
  match match_here p s with
  | Some n => Some {| m_start := pos; m_length := n |}
  | None =>
      match s with
      | EmptyString => None
      | String _ s' => search_from p (S pos) s'
      end
  end.

(** [re.search(p, s)] *)
Definition search (p : pattern) (s : string) : option match_object :=
  search_from p 0 s.

(** [m.group(0)] of a match in [s] *)
Definition group0 (s : string) (m : match_object) : string :=
  substring (m_start m) (m_length m) s.

End Re.

(** ** [json.loads]

    The default decoder: objects become [dict]s (a repeated key keeps its
    first place and its last value), arrays lists, numbers with a fraction
    or an exponent and the constants [NaN], [Infinity] and [-Infinity]
    floats; control characters inside strings are refused.  The functions
    follow [json.scanner] and [json.decoder], with the text still to read
    in place of the index into the text. *)
Module Json.
Import Py.

Inductive result (A : Type) : Type :=
| Ok (a : A)
| JSONDecodeError
| OutOfFuel.
Arguments Ok {A} a.
Arguments JSONDecodeError {A}.
Arguments OutOfFuel {A}.

Definition is_ws (c : ascii) : bool :=
  let n := nat_of_ascii c in
  ((n =? 32) || (n =? 9) || (n =? 10) || (n =? 13))%nat.

Fixpoint skip_ws (s : string) : string :=
  match s with
  | EmptyString => s
  | String c r => if is_ws c then skip_ws r else s
  end.

Definition is_digit (c : ascii) : bool :=
  let n := nat_of_ascii c in ((48 <=? n) && (n <=? 57))%nat.

Definition hex_val (c : ascii) : option N :=
  let n := N_of_ascii c in
  (if (48 <=? n) && (n <=? 57) then Some (n - 48)
   else if (65 <=? n) && (n <=? 70) then Some (n - 55)
   else if (97 <=? n) && (n <=? 102) then Some (n - 87)
   else None)%N.

(** The four hexadecimal digits of a [\uXXXX] escape. *)
Definition decode_uXXXX (a b c d : ascii) : option N :=
  match hex_val a, hex_val b, hex_val c, hex_val d with
  | Some x, Some y, Some z, Some w => Some (((x * 16 + y) * 16 + z) * 16 + w)%N
  | _, _, _, _ => None
  end.

(** The character a backslash escape other than [\u] stands for. *)
Definition BACKSLASH (c : ascii) : option ascii :=
  if Ascii.eqb c DQ then Some DQ
  else if Ascii.eqb c "\" then Some "\"%char
  else if Ascii.eqb c "/" then Some "/"%char
  else if Ascii.eqb c "b" then Some (ascii_of_nat 8)
  else if Ascii.eqb c "f" then Some (ascii_of_nat 12)
  else if Ascii.eqb c "n" then Some (ascii_of_nat 10)
  else if Ascii.eqb c "r" then Some (ascii_of_nat 13)
  else if Ascii.eqb c "t" then Some (ascii_of_nat 9)
  else None.

(** What a string literal is made of: a character taken as it stands (or
    through a short escape), or the code unit of a [\uXXXX] escape. *)
Inductive unit : Type :=
| Raw (c : ascii)
| Esc (cp : N).

(** The units of the string literal whose opening quote has been read, and
    the text after its closing quote.  A control character is refused
    ([strict] is on by default), as are an unknown escape and a literal
    with no closing quote. *)
Fixpoint scan_units (s : string) : option (list unit * string) :=
  match s with
  | EmptyString => None
  | String c r =>
      if Ascii.eqb c DQ then Some ([], r)
      else if Ascii.eqb c "\" then
        match r with
        | EmptyString => None
        | String e r' =>
            if Ascii.eqb e "u" then
              match r' with
              | String h1 (String h2 (String h3 (String h4 r''))) =>
                  match decode_uXXXX h1 h2 h3 h4 with
                  | Some cp =>
                      match scan_units r'' with
                      | Some (us, rest) => Some (Esc cp :: us, rest)
                      | None => None
                      end
                  | None => None
                  end
              | _ => None
              end
            else
              match BACKSLASH e with
              | Some ch =>
                  match scan_units r' with
                  | Some (us, rest) => Some (Raw ch :: us, rest)
                  | None => None
                  end
              | None => None
              end
        end
      else if (nat_of_ascii c <? 32)%nat then None
      else
        match scan_units r with
        | Some (us, rest) => Some (Raw c :: us, rest)
        | None => None
        end
  end.

Definition is_high_surrogate (cp : N) : bool := ((55296 <=? cp) && (cp <=? 56319))%N.
Definition is_low_surrogate (cp : N) : bool := ((56320 <=? cp) && (cp <=? 57343))%N.

(** The text of the units: a high surrogate escape directly followed by a
    low surrogate escape is one character. *)
Fixpoint join_units (us : list unit) : string :=
  match us with
  | [] => EmptyString
  | Raw c :: r => String c (join_units r)
  | Esc hi :: r =>
      match r with
      | Esc lo :: r' =>
          if is_high_surrogate hi && is_low_surrogate lo
          then chr (65536 + ((hi - 55296) * 1024 + (lo - 56320))) ++ join_units r'
          else chr hi ++ join_units r
      | _ => chr hi ++ join_units r
      end
  end.

(** [scanstring(s, end)] with [end] just after the opening quote. *)
Definition scanstring (s : string) : option (string * string) :=
  match scan_units s with
  | Some (us, rest) => Some (join_units us, rest)
  | None => None
  end.

(** The longest run of decimal digits at the start of [s], and the rest. *)
Fixpoint span_digits (s : string) : string * string :=
  match s with
  | EmptyString => (EmptyString, EmptyString)
  | String c r =>
      if is_digit c then let (ds, rest) := span_digits r in (String c ds, rest)
      else (EmptyString, s)
  end.

(** The three groups of [NUMBER_RE]: an optional minus sign with [0] or a
    run of digits that does not start with [0]; a dot with digits; an
    exponent mark with an optional sign and digits. *)
Definition scan_integer (s : string) : option (string * string) :=
  let (sign, r) :=
    match s with
    | EmptyString => (EmptyString, s)
    | String c r => if Ascii.eqb c "-" then ("-", r) else (EmptyString, s)
    end in
  match r with
  | EmptyString => None
  | String c r' =>
      if Ascii.eqb c "0" then Some (sign ++ "0", r')
      else if is_digit c then
        let (ds, rest) := span_digits r in Some (sign ++ ds, rest)
      else None
  end.

Definition scan_frac (s : string) : option (string * string) :=
  match s with
  | EmptyString => None
  | String c r =>
      if Ascii.eqb c "." then
        match span_digits r with
        | (EmptyString, _) => None
        | (ds, rest) => Some (String "." ds, rest)
        end
      else None
  end.

Definition scan_exp (s : string) : option (string * string) :=
  match s with
  | String e r =>
      if Ascii.eqb e "e" || Ascii.eqb e "E" then
        let (sign, r1) :=
          match r with
          | EmptyString => (EmptyString, r)
          | String c r1 =>
              if Ascii.eqb c "-" then ("-", r1)
              else if Ascii.eqb c "+" then ("+", r1)
              else (EmptyString, r)
          end in
        match span_digits r1 with
        | (EmptyString, _) => None
        | (ds, rest) => Some (String e (sign ++ ds), rest)
        end
      else None
  | EmptyString => None
  end.

(** [int(text)] for the text of the integer group. *)
Definition int_of_text (t : string) : Z :=
  match NilEmpty.int_of_string t with
  | Some d => Z.of_int d
  | None => 0%Z
  end.

Definition match_number (s : string) : option (value * string) :=
  match scan_integer s with
  | None => None
  | Some (integer, r) =>
      let (frac, r1) :=
        match scan_frac r with Some (f, r1) => (f, r1) | None => (EmptyString, r) end in
      let (exp, r2) :=
        match scan_exp r1 with Some (e, r2) => (e, r2) | None => (EmptyString, r1) end in
      match frac, exp with
      | EmptyString, EmptyString => Some (PyInt (int_of_text integer), r2)
      | _, _ => Some (PyFloat (integer ++ frac ++ exp), r2)
      end
  end.

(** [s] without the prefix [p], when it starts with it. *)
Fixpoint after (p s : string) : option string :=
  match p with
  | EmptyString => Some s
  | String a p' =>
      match s with
      | String b s' => if Ascii.eqb a b then after p' s' else None
      | EmptyString => None
      end
  end.

(** A value that is neither a string, an object nor an array. *)
Definition scan_atom (s : string) : result (value * string) :=
  match after "null" s with Some r => Ok (PyNone, r) | None =>
  match after "true" s with Some r => Ok (PyBool true, r) | None =>
  match after "false" s with Some r => Ok (PyBool false, r) | None =>
  match match_number s with Some vr => Ok vr | None =>
  match after "NaN" s with Some r => Ok (PyFloat "NaN", r) | None =>
  match after "Infinity" s with Some r => Ok (PyFloat "Infinity", r) | None =>
  match after "-Infinity" s with Some r => Ok (PyFloat "-Infinity", r) | None =>
  JSONDecodeError
  end end end end end end end.

(** The scanner.  Each function takes the text from the position the Python
    function is called at and returns the value with the text after it.
    [JSONObject] and [JSONArray] start after the opening bracket;
    [object_items] starts after the opening quote of a key, with the items
    read so far; [array_items] starts at a value.  A value costs at most
    three nested calls for each character it reads, which bounds the fuel a
    text needs by its length. *)
Fixpoint scan_once (fuel : nat) (s : string) : result (value * string) :=
  match fuel with
  | O => OutOfFuel
  | S fuel' =>
      match s with
      | EmptyString => JSONDecodeError
      | String c r =>
          if Ascii.eqb c DQ then
            match scanstring r with
            | Some (str, rest) => Ok (PyStr str, rest)
            | None => JSONDecodeError
            end
          else if Ascii.eqb c "{" then JSONObject fuel' r
          else if Ascii.eqb c "[" then JSONArray fuel' r
          else scan_atom s
      end
  end

with JSONObject (fuel : nat) (s : string) : result (value * string) :=
  match fuel with
  | O => OutOfFuel
  | S fuel' =>
      match skip_ws s with
      | EmptyString => JSONDecodeError
      | String c r =>
          if Ascii.eqb c "}" then Ok (PyDict [], r)
          else if Ascii.eqb c DQ then object_items fuel' [] r
          else JSONDecodeError
      end
  end

with object_items (fuel : nat) (pairs : dict) (s : string)
  : result (value * string) :=
  match fuel with
  | O => OutOfFuel
  | S fuel' =>
      match scanstring s with
      | None => JSONDecodeError
      | Some (key, r) =>
          match skip_ws r with
          | EmptyString => JSONDecodeError
          | String colon r1 =>
              if negb (Ascii.eqb colon ":") then JSONDecodeError else
              match scan_once fuel' (skip_ws r1) with
              | Ok (v, r2) =>
                  let pairs' := dict_set key v pairs in
                  match skip_ws r2 with
                  | String c r3 =>
                      if Ascii.eqb c "}" then Ok (PyDict pairs', r3)
                      else if Ascii.eqb c "," then
                        match skip_ws r3 with
                        | String q r4 =>
                            if Ascii.eqb q DQ then object_items fuel' pairs' r4
                            else JSONDecodeError
                        | EmptyString => JSONDecodeError
                        end
                      else JSONDecodeError
                  | EmptyString => JSONDecodeError
                  end
              | JSONDecodeError => JSONDecodeError
              | OutOfFuel => OutOfFuel
              end
          end
      end
  end

with JSONArray (fuel : nat) (s : string) : result (value * string) :=
  match fuel with
  | O => OutOfFuel
  | S fuel' =>
      match skip_ws s with
      | EmptyString => JSONDecodeError
      | String c r =>
          if Ascii.eqb c "]" then Ok (PyList [], r)
          else array_items fuel' [] (String c r)
      end
  end

with array_items (fuel : nat) (values : list value) (s : string)
  : result (value * string) :=
  match fuel with
  | O => OutOfFuel
  | S fuel' =>
      match scan_once fuel' s with
      | Ok (v, r) =>
          let values' := (values ++ [v])%list in
          match skip_ws r with
          | String c r1 =>
              if Ascii.eqb c "]" then Ok (PyList values', r1)
              else if Ascii.eqb c "," then array_items fuel' values' (skip_ws r1)
              else JSONDecodeError
          | EmptyString => JSONDecodeError
          end
      | JSONDecodeError => JSONDecodeError
      | OutOfFuel => OutOfFuel
      end
  end.

(** [json.loads(s)]: one value, blanks around it, and nothing else. *)
Definition loads (s : string) : result value :=
  match scan_once (3 * String.length s + 1) (skip_ws s) with
  | Ok (v, rest) =>
      match skip_ws rest with
      | EmptyString => Ok v
      | _ => JSONDecodeError
      end
  | JSONDecodeError => JSONDecodeError
  | OutOfFuel => OutOfFuel
  end.

End Json.

(** ** The fragment of [pandas] and [csv] the program uses *)
Module Pandas.
Import Py.

(** A frame of text cells; [None] is a missing cell (NaN). *)
Record DataFrame : Type := {
  columns : list string;
  rows : list (list (option string))
}.

(** The items of a record, when all its values are [str]. *)
Fixpoint str_items (d : dict) : option (list (string * string)) :=
  match d with
  | [] => Some []
  | (k, PyStr s) :: d' =>
      match str_items d' with
      | Some l => Some ((k, s) :: l)
      | None => None
      end
  | _ => None
  end.

Fixpoint str_records (l : list value) : option (list (list (string * string))) :=
  match l with
  | [] => Some []
  | PyDict d :: l' =>
      match str_items d, str_records l' with
      | Some r, Some rs => Some (r :: rs)
      | _, _ => None
      end
  | _ => None
  end.

Definition mem (c : string) (cols : list string) : bool :=
  existsb (String.eqb c) cols.

(** The keys of the records, each once, in the order they first occur. *)
Fixpoint add_keys (keys cols : list string) : list string :=
  match keys with
  | [] => cols
  | k :: keys' => add_keys keys' (if mem k cols then cols else cols ++ [k])%list
  end.

Fixpoint union_keys (recs : list (list (string * string))) (cols : list string)
  : list string :=
  match recs with
  | [] => cols
  | r :: recs' => union_keys recs' (add_keys (map fst r) cols)
  end.

Fixpoint field (c : string) (r : list (string * string)) : option string :=
  match r with
  | [] => None
  | (k, s) :: r' => if String.eqb k c then Some s else field c r'
  end.

(** [pd.DataFrame(data)] for a list of records whose values are all [str];
    [None] for any other data, which this model does not cover. *)
Definition from_records (data : value) : option DataFrame :=
  match data with
  | PyList l =>
      match str_records l with
      | Some recs =>
          let cols := union_keys recs [] in
          Some {| columns := cols;
                  rows := map (fun r => map (fun c => field c r) cols) recs |}
      | None => None
      end
  | _ => None
  end.

(** [df.empty]: an axis of length 0. *)
Definition empty (df : DataFrame) : bool :=
  match columns df, rows df with
  | [], _ => true
  | _, [] => true
  | _, _ => false
  end.

(** [len(df)]: the number of rows. *)
Definition length (df : DataFrame) : nat := List.length (rows df).

(** The cell of column [c] in a row laid out by [cols]. *)
Fixpoint cell (c : string) (cols : list string) (row : list (option string))
  : option string :=
  match cols, row with
  | k :: cols', x :: row' => if String.eqb k c then x else cell c cols' row'
  | _, _ => None
  end.

(** [df[labels]] for a list of labels: the frame of these columns, in this
    order; [None] is the [KeyError] raised when a label is no column. *)
Definition getitem (labels : list string) (df : DataFrame) : option DataFrame :=
  if forallb (fun c => mem c (columns df)) labels then
    Some {| columns := labels;
            rows := map (fun row => map (fun c => cell c (columns df) row) labels)
                      (rows df) |}
  else None.

Definition LF : ascii := ascii_of_nat 10.
Definition CR : ascii := ascii_of_nat 13.

(** [csv] with the default dialect of [to_csv]: comma, double quote,
    [QUOTE_MINIMAL], doubled quotes, and the line terminator of a POSIX
    system. *)
Fixpoint needs_quote (f : string) : bool :=
  match f with
  | EmptyString => false
  | String c r =>
      Ascii.eqb c "," || Ascii.eqb c DQ || Ascii.eqb c LF || Ascii.eqb c CR
      || needs_quote r
  end.

Fixpoint double_quotes (f : string) : string :=
  match f with
  | EmptyString => EmptyString
  | String c r =>
      if Ascii.eqb c DQ then String DQ (String DQ (double_quotes r))
      else String c (double_quotes r)
  end.

Definition csv_field (f : string) : string :=
  if needs_quote f then String DQ (double_quotes f ++ str1 DQ) else f.

Fixpoint join_fields (fs : list string) : string :=
  match fs with
  | [] => EmptyString
  | [f] => csv_field f
  | f :: fs' => csv_field f ++ "," ++ join_fields fs'
  end.

(** [writer.writerow(fields)]: a row of one empty field is written as an
    empty quoted field. *)
Definition writerow (fs : list string) : string :=
  match fs with
  | [EmptyString] => str2 DQ DQ ++ str1 LF
  | _ => join_fields fs ++ str1 LF
  end.

(** A missing cell is written as the empty text ([na_rep]). *)
Definition cell_text (x : option string) : string :=
  match x with Some s => s | None => EmptyString end.

Fixpoint writerows (rs : list (list (option string))) : string :=
  match rs with
  | [] => EmptyString
  | r :: rs' => writerow (map cell_text r) ++ writerows rs'
  end.

(** [df.to_csv(index=False)]; [None] for a frame with no column, which this
    model does not cover. *)
Definition to_csv (df : DataFrame) : option string :=
  match columns df with
  | [] => None
  | cols => Some (writerow cols ++ writerows (rows df))
  end.

End Pandas.

(** ** The program: constants and the prompt builder *)
Module App.

(** The two values of the [mode] radio button. *)
Definition MODE_SIMPLE : string := "AI 概覽 (簡單)".
Definition MODE_COMPLEX : string := "AI 模式 (複雜)".

Definition PROMPT_TEMPLATE_HEADER : string := Py.quoted "
您正在模擬一個先進的生成式 AI 搜尋系統（如 Google 的 AI 模式）的查詢擴展（Query Fan-Out）過程。
使用者的原始查詢是：`{q}`
選擇的模式是：`{mode}`

**您的第一個任務是：根據以下指示，決定要生成的查詢總數，並說明理由。**
{num_queries_instruction}

**在決定了數量和理由後，請精確生成該數量的、獨特的、合成的查詢。**
在生成的查詢集合中，必須盡可能包含以下每種查詢轉換類型（如果總數允許）：
1.  **重新表述 (Reformulations)**：用不同的方式問同一個問題。
2.  **相關查詢 (Related Queries)**：探索與主題相關但非核心的面向。
3.  **隱性查詢 (Implicit Queries)**：挖掘使用者沒有明說但可能想知道的背景資訊。
4.  **比較性查詢 (Comparative Queries)**：對比不同選項的優劣。
5.  **實體擴展 (Entity Expansions)**：深入探討查詢中提到的特定實體（人、事、物）。
6.  **個人化查詢 (Personalized Queries)**：模擬基於使用者常見需求的查詢（例如：初學者指南、預算考量等）。

每個獨立查詢的 'reasoning' 欄位，都應該解釋為什麼要生成這個特定的查詢、它的類型，以及它如何對應到使用者的整體意圖。
請勿生成依賴即時使用者歷史紀錄或地理位置的查詢。

**請嚴格按照以下格式，僅回傳一個有效的 JSON 物件：**
".

Definition JSON_STRUCTURE_EXAMPLE : string := Py.quoted "
{
  `generation_details`: {
    `target_query_count`: 12, // 這是範例數字，您需要根據分析自行決定實際數字。
    `reasoning_for_count`: `由於使用者查詢的複雜度中等，我選擇生成略多於基本數量的查詢，以涵蓋關鍵面向，例如 X、Y 和 Z。` // 這是範例理由，請提供您自己的分析。
  },
  `expanded_queries`: [
    {
      `query`: `範例查詢 1...`,
      `type`: `reformulation`,
      `user_intent`: `範例意圖...`,
      `reasoning`: `生成此查詢的具體理由...`
    }
  ]
}
".

(** The instruction paragraph of each mode, an f-string over [q], [mode] and
    the mode's minimum. *)
Definition instruction_simple (q mode : string) (min_queries_simple : Z) : string :=
  "首先，分析使用者查詢：「" ++ q ++ "」。基於其複雜度和「" ++ mode ++ "」模式，"
  ++ "**您必須決定一個最佳的查詢生成數量。** "
  ++ "這個數字**至少需要是 " ++ Py.str_int min_queries_simple ++ "**。 "
  ++ "對於一個直接的查詢，生成約 " ++ Py.str_int min_queries_simple ++ "-"
  ++ Py.str_int (min_queries_simple + 2) ++ " 個查詢可能就足夠了。 "
  ++ "如果查詢包含幾個不同面向或常見的後續問題，目標可以設定在 "
  ++ Py.str_int (min_queries_simple + 3) ++ "-"
  ++ Py.str_int (min_queries_simple + 5) ++ " 個查詢。"
  ++ "請簡要說明您選擇這個特定數字的理由。查詢本身應範圍明確且高度相關。".

Definition instruction_complex (q mode : string) (min_queries_complex : Z) : string :=
  "首先，分析使用者查詢：「" ++ q ++ "」。基於其複雜度和「" ++ mode ++ "」模式，"
  ++ "**您必須決定一個最佳的查詢生成數量。** "
  ++ "這個數字**至少需要是 " ++ Py.str_int min_queries_complex ++ "**。 "
  ++ "對於需要從多角度、子主題、比較或更深層含義進行探索的多面向查詢，"
  ++ "您應該生成更全面的集合，可能達到 "
  ++ Py.str_int (min_queries_complex + 5) ++ "-"
  ++ Py.str_int (min_queries_complex + 10)
  ++ " 個查詢，如果查詢特別廣泛或深入，甚至可以更多。"
  ++ "請簡要說明您選擇這個特定數字的理由。查詢應具備多樣性和深度。".

(** [get_query_fanout_prompt(q, mode)]; [None] would be an exception of
    [str.format]. *)
Definition get_query_fanout_prompt (q mode : string) : option string :=
  let min_queries_simple := 10%Z in
  let min_queries_complex := 20%Z in
  let num_queries_instruction :=
    if String.eqb mode MODE_SIMPLE
    then instruction_simple q mode min_queries_simple
    else instruction_complex q mode min_queries_complex in
  option_map (fun header => header ++ JSON_STRUCTURE_EXAMPLE)
    (Py.format PROMPT_TEMPLATE_HEADER
       [("q", q); ("mode", mode);
        ("num_queries_instruction", num_queries_instruction)]).

(** ** The program: model call, response interpreter, run button, display *)

(** What the program asks of Streamlit and of the model, in the order the
    script does it.  An f-string is the list of its pieces: text, a value
    formatted with [str], or the text of the exception caught. *)
Inductive fragment : Type :=
| T (text : string)
| V (v : Py.value)
| E.

Inductive call : Type :=
| generate_content (prompt : string)
| st_spinner (text : string)
| st_error (msg : list fragment)
| st_warning (msg : list fragment)
| st_success (msg : string)
| st_info (msg : string)
| st_markdown (msg : list fragment)
| st_subheader (text : string)
| st_expander (label : string) (expanded : bool)
| st_text_area (label value : string) (height : Z)
| st_dataframe (df : Pandas.DataFrame) (height : Z)
| st_download_button (label data file_name mime : string).

(** What the model call hands back: the text of the response, or an
    exception raised by [generate_content] or by [response.text], which is
    or is not a [json.JSONDecodeError]. *)
Inductive api_result : Type :=
| ApiText (text : string)
| ApiRaises (is_json_decode_error : bool).

Definition model_t := string -> api_result.

(** The two keys of [st.session_state]. *)
Record session_state : Type := {
  generation_details : Py.value;
  results : Py.value
}.

Record world : Type := {
  session : session_state;
  screen : list call
}.

(** Exceptions that end the script run: from [str.format], from [.get] on
    an object that is no [dict], from [len] on an object with no length,
    from the selection of a column the frame does not have, and from
    [.encode] on a text with a surrogate. *)
Inductive exception : Type :=
| FormatError
| AttributeError
| TypeError
| KeyError
| UnicodeEncodeError.

(** How a piece of the script ends: normally, with an uncaught exception,
    or outside what this model covers. *)
Inductive outcome (A : Type) : Type :=
| Returns (a : A)
| Raises (e : exception)
| Unmodelled.
Arguments Returns {A} a.
Arguments Raises {A} e.
Arguments Unmodelled {A}.

Definition M (A : Type) : Type := world -> outcome A * world.

Definition ret {A} (a : A) : M A := fun w => (Returns a, w).

Definition bind {A B} (m : M A) (k : A -> M B) : M B :=
  fun w =>
    match m w with
    | (Returns a, w') => k a w'
    | (Raises e, w') => (Raises e, w')
    | (Unmodelled, w') => (Unmodelled, w')
    end.

Notation "x <- m ;; k" := (bind m (fun x => k))
  (at level 61, m at next level, right associativity).
Notation "m ;;; k" := (bind m (fun _ => k))
  (at level 61, right associativity).

Definition raise {A} (e : exception) : M A := fun w => (Raises e, w).
Definition unmodelled {A} : M A := fun w => (Unmodelled, w).

Definition emit (c : call) : M unit :=
  fun w => (Returns tt, {| session := session w; screen := (screen w ++ [c])%list |}).

Definition get_session : M session_state := fun w => (Returns (session w), w).

Definition set_generation_details (v : Py.value) : M unit :=
  fun w =>
    (Returns tt,
     {| session := {| generation_details := v; results := results (session w) |};
        screen := screen w |}).

Definition set_results (v : Py.value) : M unit :=
  fun w =>
    (Returns tt,
     {| session := {| generation_details := generation_details (session w);
                      results := v |};
        screen := screen w |}).

Definition of_option {A} (e : exception) (o : option A) : M A :=
  match o with Some a => ret a | None => raise e end.

Definition covered {A} (o : option A) : M A :=
  match o with Some a => ret a | None => unmodelled end.

(** The pattern [\{.*\}] of line 128, compiled with [re.DOTALL]. *)
Definition JSON_RE : Re.pattern := [Re.Lit "{"; Re.AnyStar; Re.Lit "}"].

Definition MSG_NO_JSON : string := "🔴 模型回應中未找到有效的 JSON 物件。".
Definition MSG_MALFORMED_JSON : string := "🔴 解析 Gemini 回應的 JSON 時失敗: ".
Definition MSG_UNEXPECTED : string := "🔴 生成過程中發生未預期的錯誤: ".
Definition LABEL_RAW_RESPONSE : string := "模型原始回應".
Definition LABEL_BAD_JSON : string := "導致錯誤的原始 JSON 內容".

(** The handler of [json.JSONDecodeError]; [json_text] is bound when the
    exception comes from [json.loads]. *)
Definition except_JSONDecodeError (json_text : option string) : M Py.value :=
  emit (st_error [T MSG_MALFORMED_JSON; E]) ;;;
  emit (st_text_area LABEL_BAD_JSON
          (match json_text with Some t => t | None => "N/A" end) 200) ;;;
  set_generation_details Py.PyNone ;;;
  ret Py.PyNone.

(** The handler of any other [Exception]; [raw_text] is bound once the
    response text has been read. *)
Definition except_Exception (raw_text : option string) : M Py.value :=
  emit (st_error [T MSG_UNEXPECTED; E]) ;;;
  match raw_text with
  | Some t => emit (st_text_area LABEL_RAW_RESPONSE t 200)
  | None => ret tt
  end ;;;
  set_generation_details Py.PyNone ;;;
  ret Py.PyNone.

(** Lines 136 to 151: [json_text] is decoded and the two fields are read,
    with the handlers of the exceptions this can raise. *)
Definition decode_and_publish (raw_text json_text : string) : M Py.value :=
  match Json.loads json_text with
  | Json.Ok (Py.PyDict data) =>
      let generation_details :=
        Py.dict_get "generation_details" (Py.PyDict []) data in
      let expanded_queries :=
        Py.dict_get "expanded_queries" (Py.PyList []) data in
      set_generation_details generation_details ;;;
      ret expanded_queries
  | Json.Ok _ => except_Exception (Some raw_text)
  | Json.JSONDecodeError => except_JSONDecodeError (Some json_text)
  | Json.OutOfFuel => unmodelled
  end.

(** [generate_fanout(query, mode)], with the global [model] as argument. *)
Definition generate_fanout (model : model_t) (query mode : string) : M Py.value :=
  prompt <- of_option FormatError (get_query_fanout_prompt query mode) ;;
  emit (generate_content prompt) ;;;
  match model prompt with
  | ApiRaises true => except_JSONDecodeError None
  | ApiRaises false => except_Exception None
  | ApiText text =>
      let raw_text := Py.strip text in
      match Re.search JSON_RE raw_text with
      | None =>
          emit (st_error [T MSG_NO_JSON]) ;;;
          emit (st_text_area LABEL_RAW_RESPONSE raw_text 200) ;;;
          ret Py.PyNone
      | Some json_match =>
          let json_text := Re.group0 raw_text json_match in
          decode_and_publish raw_text json_text
      end
  end.

Definition MSG_EMPTY_QUERY : string := "⚠️ 請先輸入一個查詢。".
Definition MSG_SPINNER : string := "🤖 正在呼叫 Gemini 生成查詢擴展... 請稍候...".

(** Lines 168 to 178: the body run when the button is pressed. *)
Definition run_button (model : model_t) (user_query mode : string) : M unit :=
  set_generation_details Py.PyNone ;;;
  set_results Py.PyNone ;;;
  match Py.strip user_query with
  | EmptyString => emit (st_warning [T MSG_EMPTY_QUERY])
  | _ =>
      emit (st_spinner MSG_SPINNER) ;;;
      r <- generate_fanout model user_query mode ;;
      set_results r
  end.

Definition MSG_SUCCESS : string := "✅ 查詢擴展完成！".
Definition LABEL_PLAN : string := "🧠 查看模型的生成計畫".
Definition MSG_TARGET : string := "🔹 **模型目標數量：** `".
Definition MSG_REASON : string := "🔹 **模型決策理由：** *".
Definition MSG_ACTUAL : string := "🔹 **實際生成數量：** `".
Definition MSG_NO_QUERIES : string := "⚠️ 模型沒有生成任何查詢，或回傳了一個空列表。".
Definition RULE : string := "---".
Definition HEADING_RESULTS : string := "📊 生成的查詢結果".
Definition LABEL_DOWNLOAD : string := "📥 下載 CSV 檔案".
Definition COLUMNS : list string := ["query"; "type"; "user_intent"; "reasoning"].

Definition WELCOME : string := Py.quoted "
        **歡迎使用 Qforia！**

        1.  在左側的側邊欄輸入您的 **Gemini API Key**。
        2.  在 **`輸入您的查詢`** 欄位中寫下您想分析的任何問題。
        3.  選擇您想要的 **查詢模式**。
        4.  點擊 **`執行查詢擴展`** 按鈕，即可在此處看到結果。
        ".

Definition FOOTER : string := "Made with ❤️ by a Streamlit enthusiast.".

(** [isinstance(v, int)], and the number such a value compares as ([bool]
    is a subclass of [int]). *)
Definition as_int (v : Py.value) : option Z :=
  match v with
  | Py.PyInt z => Some z
  | Py.PyBool b => Some (if b then 1 else 0)%Z
  | _ => None
  end.

(** The warning of line 201 for a planned and an actual number. *)
Definition mismatch_warning (target : Py.value) (generated_count : nat) : call :=
  st_warning [T "⚠️ 注意：模型計畫生成 "; V target; T " 個查詢，但實際產生了 ";
              V (Py.PyInt (Z.of_nat generated_count)); T " 個。"].

(** Lines 188 to 201: the generation plan. *)
Definition show_plan (st : session_state) : M unit :=
  shown <- covered (Py.truthy (generation_details st)) ;;
  if shown then
    let details := generation_details st in
    generated_count <- of_option TypeError (Py.len (results st)) ;;
    match details with
    | Py.PyDict d =>
        let target_count_model := Py.dict_get "target_query_count" (Py.PyStr "N/A") d in
        let reasoning_model := Py.dict_get "reasoning_for_count" (Py.PyStr "模型未提供") d in
        emit (st_expander LABEL_PLAN true) ;;;
        emit (st_markdown [T MSG_TARGET; V target_count_model; T "`"]) ;;;
        emit (st_markdown [T MSG_REASON; V reasoning_model; T "*"]) ;;;
        emit (st_markdown [T MSG_ACTUAL; V (Py.PyInt (Z.of_nat generated_count)); T "`"]) ;;;
        match as_int target_count_model with
        | Some t =>
            if (t =? Z.of_nat generated_count)%Z then ret tt
            else emit (mismatch_warning target_count_model generated_count)
        | None => ret tt
        end
    | _ => raise AttributeError
    end
  else ret tt.

(** Lines 203 to 222: the table and the CSV download. *)
Definition show_table (st : session_state) : M unit :=
  emit (st_markdown [T RULE]) ;;;
  emit (st_subheader HEADING_RESULTS) ;;;
  df0 <- covered (Pandas.from_records (results st)) ;;
  df <- (if Pandas.empty df0 then ret df0
         else of_option KeyError (Pandas.getitem COLUMNS df0)) ;;
  emit (st_dataframe df
          ((Z.min (Z.of_nat (Pandas.length df)) 20 + 1) * 35 + 3)%Z) ;;;
  text <- covered (Pandas.to_csv df) ;;
  csv <- of_option UnicodeEncodeError (Py.encode_utf8 text) ;;
  emit (st_download_button LABEL_DOWNLOAD csv "qforia_output.csv" "text/csv").

(** Lines 183 to 243: what is shown for the session state. *)
Definition display : M unit :=
  st <- get_session ;;
  has_results <- covered (Py.truthy (results st)) ;;
  (if has_results then
     emit (st_success MSG_SUCCESS) ;;;
     show_plan st ;;;
     show_table st
   else
     match results st with
     | Py.PyNone => ret tt
     | _ => emit (st_warning [T MSG_NO_QUERIES])
     end) ;;;
  match results st, generation_details st with
  | Py.PyNone, Py.PyNone =>
      emit (st_markdown [T RULE]) ;;;
      emit (st_info WELCOME)
  | _, _ => ret tt
  end ;;;
  emit (st_markdown [T RULE]) ;;;
  emit (st_markdown [T FOOTER]).

(** Lines 161 to 243 for one run of the script: [previous] is the session
    state left by the run before, if any; [pressed] is what the button
    returns. *)
Definition EMPTY_SESSION : session_state :=
  {| generation_details := Py.PyNone; results := Py.PyNone |}.

Definition script (model : model_t) (user_query mode : string) (pressed : bool)
    (previous : option session_state) : outcome unit * world :=
  let start :=
    {| session := match previous with Some st => st | None => EMPTY_SESSION end;
       screen := [] |} in
  ((if pressed then run_button model user_query mode else ret tt) ;;;
   display) start.

End App.

(** * Properties *)

(** ** Text: occurrence, prefixes and suffixes *)

(** [sub in s] *)
Definition contains (sub s : string) : Prop :=
  exists pre post, s = pre ++ sub ++ post.

(** [s.endswith(suffix)] *)
Definition ends_with (suffix s : string) : Prop :=
  exists pre, s = pre ++ suffix.

Lemma append_assoc (a b c : string) : (a ++ b) ++ c = a ++ b ++ c.
Proof.
  induction a as [|x a IH]; simpl; [reflexivity|].
  now rewrite IH.
Qed.

Lemma append_nil_r (a : string) : a ++ EmptyString = a.
Proof.
  induction a as [|x a IH]; simpl; [reflexivity|].
  now rewrite IH.
Qed.

Lemma length_append (a b : string) :
  String.length (a ++ b) = String.length a + String.length b.
Proof.
  induction a as [|x a IH]; simpl; [reflexivity|].
  now rewrite IH.
Qed.

Lemma contains_here (sub post : string) : contains sub (sub ++ post).
Proof. exists EmptyString, post. reflexivity. Qed.

Lemma contains_after (pre sub s : string) :
  contains sub s -> contains sub (pre ++ s).
Proof.
  intros (a & b & ->). exists (pre ++ a), b.
  now rewrite append_assoc.
Qed.

Lemma contains_before (sub s post : string) :
  contains sub s -> contains sub (s ++ post).
Proof.
  intros (a & b & ->). exists a, (b ++ post).
  now rewrite !append_assoc.
Qed.

(** ** The prompt builder *)
Module PromptFacts.
Import App.

(** The four pieces of the header around its three replacement fields. *)
Definition HEADER_TO_QUERY : string := Py.quoted "
您正在模擬一個先進的生成式 AI 搜尋系統（如 Google 的 AI 模式）的查詢擴展（Query Fan-Out）過程。
使用者的原始查詢是：`".

Definition HEADER_TO_MODE : string := Py.quoted "`
選擇的模式是：`".

Definition HEADER_TO_INSTRUCTION : string := Py.quoted "`

**您的第一個任務是：根據以下指示，決定要生成的查詢總數，並說明理由。**
".

Definition HEADER_REST : string := "

**在決定了數量和理由後，請精確生成該數量的、獨特的、合成的查詢。**
在生成的查詢集合中，必須盡可能包含以下每種查詢轉換類型（如果總數允許）：
1.  **重新表述 (Reformulations)**：用不同的方式問同一個問題。
2.  **相關查詢 (Related Queries)**：探索與主題相關但非核心的面向。
3.  **隱性查詢 (Implicit Queries)**：挖掘使用者沒有明說但可能想知道的背景資訊。
4.  **比較性查詢 (Comparative Queries)**：對比不同選項的優劣。
5.  **實體擴展 (Entity Expansions)**：深入探討查詢中提到的特定實體（人、事、物）。
6.  **個人化查詢 (Personalized Queries)**：模擬基於使用者常見需求的查詢（例如：初學者指南、預算考量等）。

每個獨立查詢的 'reasoning' 欄位，都應該解釋為什麼要生成這個特定的查詢、它的類型，以及它如何對應到使用者的整體意圖。
請勿生成依賴即時使用者歷史紀錄或地理位置的查詢。

**請嚴格按照以下格式，僅回傳一個有效的 JSON 物件：**
".

(** The instruction paragraph the builder chooses for a mode. *)
Definition instruction (q mode : string) : string :=
  if String.eqb mode MODE_SIMPLE
  then instruction_simple q mode 10
  else instruction_complex q mode 20.

(** The prompt, piece by piece. *)
Definition prompt_text (q mode : string) : string :=
  HEADER_TO_QUERY ++ q ++ HEADER_TO_MODE ++ mode ++ HEADER_TO_INSTRUCTION
  ++ instruction q mode ++ HEADER_REST ++ JSON_STRUCTURE_EXAMPLE.

(** The minimum the builder states for a mode, and the sentence of the
    instruction paragraph that states it. *)
Definition min_queries (mode : string) : Z :=
  if String.eqb mode MODE_SIMPLE then 10 else 20.

Definition threshold_sentence (n : Z) : string :=
  "這個數字**至少需要是 " ++ Py.str_int n ++ "**。 ".

Lemma format_header (q mode i : string) :
  Py.format PROMPT_TEMPLATE_HEADER
    [("q", q); ("mode", mode); ("num_queries_instruction", i)]
  = Some (HEADER_TO_QUERY ++ q ++ HEADER_TO_MODE ++ mode
          ++ HEADER_TO_INSTRUCTION ++ i ++ HEADER_REST).
Proof. vm_compute. reflexivity. Qed.

(** The builder never fails, and its result is [prompt_text]. *)
Lemma get_query_fanout_prompt_text (q mode : string) :
  get_query_fanout_prompt q mode = Some (prompt_text q mode).
Proof.
  unfold get_query_fanout_prompt, prompt_text, instruction. cbv zeta.
  rewrite format_header. unfold option_map.
  now rewrite !append_assoc.
Qed.

Lemma instruction_simple_threshold (q mode : string) (n : Z) :
  contains (threshold_sentence n) (instruction_simple q mode n).
Proof.
  unfold instruction_simple, threshold_sentence.
  exists ("首先，分析使用者查詢：「" ++ q ++ "」。基於其複雜度和「" ++ mode ++ "」模式，"
          ++ "**您必須決定一個最佳的查詢生成數量。** ").
  eexists. rewrite !append_assoc. reflexivity.
Qed.

Lemma instruction_complex_threshold (q mode : string) (n : Z) :
  contains (threshold_sentence n) (instruction_complex q mode n).
Proof.
  unfold instruction_complex, threshold_sentence.
  exists ("首先，分析使用者查詢：「" ++ q ++ "」。基於其複雜度和「" ++ mode ++ "」模式，"
          ++ "**您必須決定一個最佳的查詢生成數量。** ").
  eexists. rewrite !append_assoc. reflexivity.
Qed.

Lemma prompt_contains_instruction (sub q mode : string) :
  contains sub (instruction q mode) -> contains sub (prompt_text q mode).
Proof.
  intros H. unfold prompt_text.
  do 5 apply contains_after. now apply contains_before.
Qed.

(** C1: for every query and mode the builder returns a prompt that
    contains the query text as it is, that contains the sentence stating
    the minimum of the mode (10 for the simple mode; 20 for the complex
    mode, as for any mode that is not the simple one), and that ends with
    the JSON example. *)
Theorem prompt_has_query_threshold_and_schema (q mode : string) :
  exists prompt,
    get_query_fanout_prompt q mode = Some prompt
    /\ contains q prompt
    /\ contains (threshold_sentence (min_queries mode)) prompt
    /\ min_queries MODE_SIMPLE = 10%Z
    /\ min_queries MODE_COMPLEX = 20%Z
    /\ ends_with JSON_STRUCTURE_EXAMPLE prompt.
Proof.
  exists (prompt_text q mode). split; [apply get_query_fanout_prompt_text|].
  split.
  { unfold prompt_text. apply contains_after. apply contains_here. }
  split.
  { apply prompt_contains_instruction. unfold instruction, min_queries.
    destruct (String.eqb mode MODE_SIMPLE).
    - apply instruction_simple_threshold.
    - apply instruction_complex_threshold. }
  split; [reflexivity|]. split; [reflexivity|].
  unfold prompt_text.
  exists (HEADER_TO_QUERY ++ q ++ HEADER_TO_MODE ++ mode ++ HEADER_TO_INSTRUCTION
          ++ instruction q mode ++ HEADER_REST).
  now rewrite !append_assoc.
Qed.

(** The sentence as the two modes read it. *)
Example threshold_sentences :
  threshold_sentence (min_queries MODE_SIMPLE) = "這個數字**至少需要是 10**。 "
  /\ threshold_sentence (min_queries MODE_COMPLEX) = "這個數字**至少需要是 20**。 ".
Proof. split; reflexivity. Qed.

End PromptFacts.

(** ** Extraction of the JSON text *)
Module ExtractFacts.
Import Py App.

(** [c in s] for a character. *)
Fixpoint occurs (c : ascii) (s : string) : bool :=
  match s with
  | EmptyString => false
  | String a r => Ascii.eqb a c || occurs c r
  end.

(** [s] from its first [c] on. *)
Fixpoint from_first (c : ascii) (s : string) : option string :=
  match s with
  | EmptyString => None
  | String a r => if Ascii.eqb a c then Some s else from_first c r
  end.

(** [s] up to its last [c], that character included. *)
Fixpoint upto_last (c : ascii) (s : string) : option string :=
  match s with
  | EmptyString => None
  | String a r =>
      match upto_last c r with
      | Some u => Some (String a u)
      | None => if Ascii.eqb a c then Some (str1 a) else None
      end
  end.

(** Following the words of the claim: the text from the first opening brace
    to the last closing brace, if there is a closing brace after the first
    opening one. *)
Definition first_to_last_brace (s : string) : option string :=
  match from_first "{" s with
  | Some t => upto_last "}" t
  | None => None
  end.

(** What the program computes at lines 128 to 135. *)
Definition extract (raw_text : string) : option string :=
  option_map (Re.group0 raw_text) (Re.search JSON_RE raw_text).

Lemma from_first_none (c : ascii) (s : string) :
  from_first c s = None <-> occurs c s = false.
Proof.
  induction s as [|a r IH]; simpl; [tauto|].
  destruct (Ascii.eqb a c); simpl; [split; discriminate|exact IH].
Qed.

Lemma upto_last_none (c : ascii) (s : string) :
  upto_last c s = None <-> occurs c s = false.
Proof.
  induction s as [|a r IH]; simpl; [tauto|].
  destruct (upto_last c r) as [u|].
  - split; [discriminate|]. intros H. apply orb_false_iff in H.
    destruct H as [_ H]. apply IH in H. discriminate.
  - destruct IH as [IH _]. rewrite (IH eq_refl), orb_false_r.
    destruct (Ascii.eqb a c); split; congruence.
Qed.

Lemma from_first_occurs (c d : ascii) (s t : string) :
  from_first c s = Some t -> occurs d s = false -> occurs d t = false.
Proof.
  induction s as [|a r IH]; simpl; [discriminate|].
  destruct (Ascii.eqb a c).
  - intros [= <-] H. exact H.
  - intros H1 H2. apply orb_false_iff in H2. now apply IH.
Qed.

Lemma upto_last_prefix (c : ascii) (s u : string) :
  upto_last c s = Some u -> substring 0 (String.length u) s = u.
Proof.
  revert u. induction s as [|a r IH]; simpl; [discriminate|].
  intros u. destruct (upto_last c r) as [v|].
  - intros [= <-]. simpl. now rewrite (IH v eq_refl).
  - destruct (Ascii.eqb a c); [|discriminate].
    intros [= <-]. simpl. now destruct r.
Qed.

Lemma substring_skip (pre s : string) (n : nat) :
  substring (String.length pre) n (pre ++ s) = substring 0 n s.
Proof. induction pre as [|a pre IH]; simpl; [reflexivity|exact IH]. Qed.

(** One step of [.*]: the longer match first, the rest of the pattern
    here otherwise. *)
Lemma match_here_star (p : Re.pattern) (a : ascii) (s : string) :
  Re.match_here (Re.AnyStar :: p) (String a s) =
  match Re.match_here (Re.AnyStar :: p) s with
  | Some n => Some (S n)
  | None => Re.match_here p (String a s)
  end.
Proof. reflexivity. Qed.

Lemma match_here_lit (c a : ascii) (p : Re.pattern) (s : string) :
  Re.match_here (Re.Lit c :: p) (String a s) =
  if Ascii.eqb c a then option_map S (Re.match_here p s) else None.
Proof. reflexivity. Qed.

Lemma match_star_brace (s : string) :
  Re.match_here [Re.AnyStar; Re.Lit "}"] s =
  option_map String.length (upto_last "}" s).
Proof.
  induction s as [|a r IH]; [reflexivity|].
  rewrite match_here_star, IH. cbn [upto_last].
  destruct (upto_last "}" r) as [u|]; [reflexivity|].
  cbn [option_map]. rewrite match_here_lit, (Ascii.eqb_sym "}" a).
  now destruct (Ascii.eqb a "}").
Qed.

Lemma match_json_re (a : ascii) (r : string) :
  Re.match_here JSON_RE (String a r) =
  if Ascii.eqb a "{"
  then option_map (fun u => S (String.length u)) (upto_last "}" r)
  else None.
Proof.
  unfold JSON_RE.
  rewrite match_here_lit, (Ascii.eqb_sym "{" a), match_star_brace.
  destruct (Ascii.eqb a "{"); [|reflexivity].
  now destruct (upto_last "}" r).
Qed.

Lemma first_to_last_brace_none (s : string) :
  occurs "}" s = false -> first_to_last_brace s = None.
Proof.
  intros H. unfold first_to_last_brace.
  destruct (from_first "{" s) as [t|] eqn:E; [|reflexivity].
  apply upto_last_none. exact (from_first_occurs _ _ _ _ E H).
Qed.

Lemma search_from_spec (s pre : string) :
  option_map (Re.group0 (pre ++ s))
    (Re.search_from JSON_RE (String.length pre) s)
  = first_to_last_brace s.
Proof.
  revert pre. induction s as [|a r IH]; intros pre; [reflexivity|].
  assert (Hnext :
    option_map (Re.group0 (pre ++ String a r))
      (Re.search_from JSON_RE (S (String.length pre)) r)
    = first_to_last_brace r).
  { specialize (IH (pre ++ str1 a)).
    rewrite append_assoc, length_append in IH. simpl in IH.
    now rewrite Nat.add_1_r in IH. }
  cbn [Re.search_from]. rewrite match_json_re.
  unfold first_to_last_brace at 1. cbn [from_first].
  destruct (Ascii.eqb a "{") eqn:Ea.
  - apply Ascii.eqb_eq in Ea. subst a. cbn [upto_last].
    destruct (upto_last "}" r) as [u|] eqn:Eu.
    + cbn [option_map]. unfold Re.group0. cbn [Re.m_start Re.m_length].
      rewrite substring_skip. simpl.
      now rewrite (upto_last_prefix _ _ _ Eu).
    + cbn [option_map]. simpl (Ascii.eqb "{" "}").
      rewrite Hnext. apply first_to_last_brace_none.
      now apply upto_last_none.
  - exact Hnext.
Qed.

(** The pattern finds the text from the first opening brace to the last
    closing brace. *)
Lemma extract_spec (raw_text : string) :
  extract raw_text = first_to_last_brace raw_text.
Proof. exact (search_from_spec raw_text EmptyString). Qed.

(** *** What [first_to_last_brace] returns, in terms of the text *)

Lemma from_first_split (c : ascii) (s t : string) :
  from_first c s = Some t ->
  exists pre r, s = pre ++ String c r /\ occurs c pre = false /\ t = String c r.
Proof.
  induction s as [|a r IH]; simpl; [discriminate|].
  destruct (Ascii.eqb a c) eqn:E.
  - intros [= <-]. apply Ascii.eqb_eq in E. subst a.
    now exists EmptyString, r.
  - intros H. destruct (IH H) as (pre & r' & -> & Hpre & ->).
    exists (String a pre), r'. simpl. now rewrite E.
Qed.

Lemma upto_last_split (c : ascii) (s u : string) :
  upto_last c s = Some u ->
  exists mid post,
    s = mid ++ String c post /\ occurs c post = false /\ u = mid ++ str1 c.
Proof.
  revert u. induction s as [|a r IH]; simpl; [discriminate|].
  intros u. destruct (upto_last c r) as [v|] eqn:E.
  - intros [= <-]. destruct (IH v eq_refl) as (mid & post & -> & Hpost & ->).
    now exists (String a mid), post.
  - destruct (Ascii.eqb a c) eqn:Ea; [|discriminate].
    intros [= <-]. apply Ascii.eqb_eq in Ea. subst a.
    exists EmptyString, r. repeat split. now apply upto_last_none.
Qed.

Lemma occurs_app (c : ascii) (a b : string) :
  occurs c (a ++ b) = occurs c a || occurs c b.
Proof.
  induction a as [|x a IH]; simpl; [reflexivity|].
  now rewrite IH, orb_assoc.
Qed.

(** A result is the text between the first opening brace and the last
    closing brace, both included. *)
Lemma first_to_last_brace_some (s j : string) :
  first_to_last_brace s = Some j ->
  exists pre mid post,
    s = pre ++ String "{" (mid ++ String "}" post)
    /\ occurs "{" pre = false /\ occurs "}" post = false
    /\ j = String "{" (mid ++ str1 "}").
Proof.
  unfold first_to_last_brace.
  destruct (from_first "{" s) as [t|] eqn:E; [|discriminate].
  destruct (from_first_split _ _ _ E) as (pre & r & -> & Hpre & ->).
  intros H. destruct (upto_last_split _ _ _ H) as (mid & post & Hs & Hpost & ->).
  destruct mid as [|m mid]; simpl in Hs; [discriminate|].
  injection Hs as <- ->. now exists pre, mid, post.
Qed.

Lemma from_first_app (c : ascii) (pre rest : string) :
  exists x, from_first c (pre ++ String c rest) = Some (x ++ String c rest).
Proof.
  induction pre as [|a pre [x IH]]; simpl.
  - exists EmptyString. now rewrite Ascii.eqb_refl.
  - destruct (Ascii.eqb a c).
    + now exists (String a pre).
    + now exists x.
Qed.

(** No result means that no closing brace follows an opening brace. *)
Lemma first_to_last_brace_no_region (s : string) :
  first_to_last_brace s = None ->
  forall pre mid post, s <> pre ++ String "{" (mid ++ String "}" post).
Proof.
  intros H pre mid post ->. unfold first_to_last_brace in H.
  destruct (from_first_app "{" pre (mid ++ String "}" post)) as [x Hx].
  rewrite Hx in H. apply upto_last_none in H.
  rewrite occurs_app in H. simpl in H. rewrite occurs_app in H. simpl in H.
  rewrite !orb_true_r in H. discriminate.
Qed.

End ExtractFacts.

(** ** [str.strip] leaves braces where they are *)
Module StripFacts.
Import Py ExtractFacts.

(** A character that is part of no whitespace character. *)
Definition plain (c : ascii) : Prop :=
  forallb (fun w => negb (occurs c w)) WHITESPACE = true.

Lemma plain_open_brace : plain "{".
Proof. vm_compute. reflexivity. Qed.

Lemma plain_close_brace : plain "}".
Proof. vm_compute. reflexivity. Qed.

Lemma is_whitespace_In (w : string) :
  is_whitespace w = true <-> In w WHITESPACE.
Proof.
  unfold is_whitespace. rewrite existsb_exists. split.
  - intros (x & Hx & E). apply String.eqb_eq in E. now subst.
  - intros H. exists w. split; [exact H|apply String.eqb_refl].
Qed.

Lemma whitespace_plain (c : ascii) (w : string) :
  plain c -> is_whitespace w = true -> occurs c w = false.
Proof.
  intros Hc Hw. apply is_whitespace_In in Hw.
  unfold plain in Hc. rewrite forallb_forall in Hc.
  specialize (Hc w Hw). now apply negb_true_iff in Hc.
Qed.

(** Induction along [lstrip]: the text is a run of whitespace characters
    followed by what [lstrip] returns. *)
Lemma lstrip_ind (P : string -> string -> Prop) :
  (forall s, P s s) ->
  (forall w s t, is_whitespace w = true -> P s t -> P (w ++ s) t) ->
  forall s, P s (lstrip s).
Proof.
  intros Hstop Hstep s.
  remember (String.length s) as n eqn:Hn. revert s Hn.
  induction n as [n IH] using lt_wf_ind. intros s Hn.
  destruct s as [|a r1]; [apply Hstop|].
  cbn [lstrip]. destruct (is_whitespace (str1 a)) eqn:E1.
  { apply (Hstep (str1 a) r1 _ E1).
    apply (IH (String.length r1)); [simpl in Hn; lia|reflexivity]. }
  destruct r1 as [|b r2]; [apply Hstop|].
  destruct (is_whitespace (str2 a b)) eqn:E2.
  { apply (Hstep (str2 a b) r2 _ E2).
    apply (IH (String.length r2)); [simpl in Hn; lia|reflexivity]. }
  destruct r2 as [|c r3]; [apply Hstop|].
  destruct (is_whitespace (str3 a b c)) eqn:E3.
  { apply (Hstep (str3 a b c) r3 _ E3).
    apply (IH (String.length r3)); [simpl in Hn; lia|reflexivity]. }
  apply Hstop.
Qed.

Lemma from_first_skip (c : ascii) (w s : string) :
  occurs c w = false -> from_first c (w ++ s) = from_first c s.
Proof.
  induction w as [|a w IH]; simpl; [reflexivity|].
  intros H. apply orb_false_iff in H. destruct H as [Ha Hw].
  rewrite Ha. now apply IH.
Qed.

Lemma lstrip_from_first (c : ascii) (s : string) :
  plain c -> from_first c (lstrip s) = from_first c s.
Proof.
  intros Hc. apply (lstrip_ind (fun s t => from_first c t = from_first c s)).
  - reflexivity.
  - intros w s' t Hw IH. rewrite from_first_skip; [exact IH|].
    now apply whitespace_plain.
Qed.

Lemma blank_occurs (c : ascii) (s : string) :
  plain c -> blank s = true -> occurs c s = false.
Proof.
  intros Hc Hb. apply from_first_none.
  rewrite <- (lstrip_from_first c s Hc).
  unfold blank in Hb. now destruct (lstrip s).
Qed.

Lemma rstrip_from_first (c : ascii) (s : string) :
  plain c -> from_first c (rstrip s) = option_map rstrip (from_first c s).
Proof.
  intros Hc. induction s as [|a r IH]; [reflexivity|].
  cbn [rstrip]. destruct (blank (String a r)) eqn:Hb.
  - apply (blank_occurs c _ Hc) in Hb. apply from_first_none in Hb.
    now rewrite Hb.
  - cbn [from_first]. destruct (Ascii.eqb a c).
    + cbn [option_map rstrip]. now rewrite Hb.
    + exact IH.
Qed.

Lemma rstrip_upto_last (c : ascii) (s : string) :
  plain c -> upto_last c (rstrip s) = upto_last c s.
Proof.
  intros Hc. induction s as [|a r IH]; [reflexivity|].
  cbn [rstrip]. destruct (blank (String a r)) eqn:Hb.
  - apply (blank_occurs c _ Hc) in Hb. apply upto_last_none in Hb.
    now rewrite Hb.
  - cbn [upto_last]. now rewrite IH.
Qed.

(** Stripping the response does not change the text between the braces. *)
Lemma strip_first_to_last_brace (s : string) :
  first_to_last_brace (strip s) = first_to_last_brace s.
Proof.
  unfold first_to_last_brace, strip.
  rewrite (rstrip_from_first _ _ plain_open_brace).
  rewrite (lstrip_from_first _ _ plain_open_brace).
  destruct (from_first "{" s) as [t|]; [|reflexivity].
  cbn [option_map]. apply (rstrip_upto_last _ _ plain_close_brace).
Qed.

(** Text made of whitespace characters only. *)
Inductive whitespace_only : string -> Prop :=
| ws_empty : whitespace_only EmptyString
| ws_more (w s : string) :
    In w WHITESPACE -> whitespace_only s -> whitespace_only (w ++ s).

Lemma lstrip_skip (w s : string) :
  In w WHITESPACE -> lstrip (w ++ s) = lstrip s.
Proof.
  intros H. unfold WHITESPACE, WHITESPACE_CODEPOINTS in H. cbn [map] in H.
  cbn [In] in H.
  repeat (destruct H as [<-|H]; [reflexivity|]). destruct H.
Qed.

Lemma whitespace_only_strip (s : string) :
  whitespace_only s -> strip s = EmptyString.
Proof.
  unfold strip. induction 1 as [|w s Hw Hs IH]; [reflexivity|].
  now rewrite lstrip_skip.
Qed.

(** Conversely, text that strips to nothing is whitespace only. *)
Lemma lstrip_split (s : string) :
  exists pre, whitespace_only pre /\ s = pre ++ lstrip s.
Proof.
  apply (lstrip_ind (fun s t => exists pre, whitespace_only pre /\ s = pre ++ t)).
  - intros s'. exists EmptyString. split; [constructor|reflexivity].
  - intros w s' t Hw (pre & Hpre & ->). exists (w ++ pre). split.
    + constructor; [now apply is_whitespace_In|exact Hpre].
    + now rewrite append_assoc.
Qed.

Lemma rstrip_empty (s : string) : rstrip s = EmptyString -> blank s = true.
Proof.
  destruct s as [|a r]; [reflexivity|]. cbn [rstrip].
  now destruct (blank (String a r)).
Qed.

Lemma strip_empty_whitespace_only (s : string) :
  strip s = EmptyString -> whitespace_only s.
Proof.
  unfold strip. intros H. apply rstrip_empty in H. unfold blank in H.
  destruct (lstrip_split s) as (pre & Hpre & Hs).
  destruct (lstrip_split (lstrip s)) as (pre2 & Hpre2 & Hs2).
  destruct (lstrip (lstrip s)); [|discriminate].
  rewrite append_nil_r in Hs2. rewrite Hs2 in Hs. rewrite Hs.
  clear -Hpre Hpre2. induction Hpre as [|w p Hw Hp IH]; [exact Hpre2|].
  rewrite append_assoc. now constructor.
Qed.

End StripFacts.

(** ** The response interpreter *)
Module InterpreterFacts.
Import Py App PromptFacts ExtractFacts StripFacts.

(** Unfolds the monad of the script, and nothing else. *)
Ltac run :=
  cbv [bind emit ret of_option covered raise unmodelled
       set_generation_details set_results get_session
       except_JSONDecodeError except_Exception
       session screen generation_details results];
  rewrite <- ?List.app_assoc; cbn [List.app].

(** The world after some more calls. *)
Definition shown (calls : list call) (w : world) : world :=
  {| session := session w; screen := (screen w ++ calls)%list |}.

(** The world after the generation details have been set and some more
    calls have been made. *)
Definition published (details : value) (calls : list call) (w : world) : world :=
  {| session := {| generation_details := details;
                   results := results (session w) |};
     screen := (screen w ++ calls)%list |}.

(** [generate_fanout] once its prompt is known. *)
Lemma generate_fanout_eq (model : model_t) (query mode : string) (w : world) :
  generate_fanout model query mode w =
  (emit (generate_content (prompt_text query mode)) ;;;
   match model (prompt_text query mode) with
   | ApiRaises true => except_JSONDecodeError None
   | ApiRaises false => except_Exception None
   | ApiText text =>
       match extract (strip text) with
       | None =>
           emit (st_error [T MSG_NO_JSON]) ;;;
           emit (st_text_area LABEL_RAW_RESPONSE (strip text) 200) ;;;
           ret PyNone
       | Some json_text => decode_and_publish (strip text) json_text
       end
   end) w.
Proof.
  unfold generate_fanout. rewrite get_query_fanout_prompt_text.
  cbv [of_option bind ret extract].
  destruct (model (prompt_text query mode)) as [text|[|]]; try reflexivity.
  now destruct (Re.search JSON_RE (strip text)).
Qed.

(** [generate_fanout] once the model has answered with a text. *)
Lemma generate_fanout_text
    (model : model_t) (query mode text : string) (w : world) :
  model (prompt_text query mode) = ApiText text ->
  generate_fanout model query mode w =
  (emit (generate_content (prompt_text query mode)) ;;;
   match first_to_last_brace text with
   | None =>
       emit (st_error [T MSG_NO_JSON]) ;;;
       emit (st_text_area LABEL_RAW_RESPONSE (strip text) 200) ;;;
       ret PyNone
   | Some json_text => decode_and_publish (strip text) json_text
   end) w.
Proof.
  intros Hm. rewrite generate_fanout_eq, Hm.
  now rewrite extract_spec, strip_first_to_last_brace.
Qed.

(** C2: the interpreter decodes exactly the text from the first opening
    brace to the last closing brace of the response (whatever lies between
    them, nested or not); when no closing brace follows an opening brace it
    shows the error for a missing JSON object and the raw response,
    leaves the session state alone and returns [None]. *)
Theorem extracts_first_brace_to_last_brace
    (model : model_t) (query mode text : string) (w : world) :
  model (prompt_text query mode) = ApiText text ->
  generate_fanout model query mode w =
  match first_to_last_brace text with
  | Some json_text =>
      (emit (generate_content (prompt_text query mode)) ;;;
       decode_and_publish (strip text) json_text) w
  | None =>
      (Returns PyNone,
       shown [generate_content (prompt_text query mode);
              st_error [T MSG_NO_JSON];
              st_text_area LABEL_RAW_RESPONSE (strip text) 200] w)
  end.
Proof.
  intros Hm. rewrite (generate_fanout_text _ _ _ _ _ Hm).
  destruct (first_to_last_brace text); [reflexivity|].
  unfold shown. run. reflexivity.
Qed.

Definition W0 : world := {| session := EMPTY_SESSION; screen := [] |}.

Lemma extracts_first_brace_to_last_brace_witness :
  generate_fanout (fun _ => ApiText "Here you go: } {a}, {b} {") "q" MODE_SIMPLE W0 =
  match first_to_last_brace "Here you go: } {a}, {b} {" with
  | Some json_text =>
      (emit (generate_content (prompt_text "q" MODE_SIMPLE)) ;;;
       decode_and_publish (strip "Here you go: } {a}, {b} {") json_text) W0
  | None =>
      (Returns PyNone,
       shown [generate_content (prompt_text "q" MODE_SIMPLE);
              st_error [T MSG_NO_JSON];
              st_text_area LABEL_RAW_RESPONSE (strip "Here you go: } {a}, {b} {") 200] W0)
  end.
Proof.
  apply (extracts_first_brace_to_last_brace
           (fun _ => ApiText "Here you go: } {a}, {b} {") "q" MODE_SIMPLE
           "Here you go: } {a}, {b} {" W0).
  reflexivity.
Defined.

(** The match is greedy and does not look at nesting. *)
Example first_to_last_brace_greedy :
  first_to_last_brace "Here you go: } {a}, {b} {" = Some "{a}, {b}".
Proof. reflexivity. Qed.

(** C3: when the text between the braces does not decode, the interpreter
    shows the error for malformed JSON together with that text, sets the
    generation details to [None] and returns [None]. *)
Theorem malformed_json_reported
    (model : model_t) (query mode text json_text : string) (w : world) :
  model (prompt_text query mode) = ApiText text ->
  first_to_last_brace text = Some json_text ->
  Json.loads json_text = Json.JSONDecodeError ->
  generate_fanout model query mode w =
  (Returns PyNone,
   published PyNone
     [generate_content (prompt_text query mode);
      st_error [T MSG_MALFORMED_JSON; E];
      st_text_area LABEL_BAD_JSON json_text 200] w).
Proof.
  intros Hm Hj Hl.
  rewrite (generate_fanout_text _ _ _ _ _ Hm), Hj.
  unfold decode_and_publish. rewrite Hl. unfold published. run. reflexivity.
Qed.

(** A response cut off inside the array of queries. *)
Definition TRUNCATED_RESPONSE : string :=
  quoted "{`generation_details`: {...}, `expanded_queries`: [}".

Lemma malformed_json_reported_witness :
  generate_fanout (fun _ => ApiText TRUNCATED_RESPONSE) "q" MODE_SIMPLE W0 =
  (Returns PyNone,
   published PyNone
     [generate_content (prompt_text "q" MODE_SIMPLE);
      st_error [T MSG_MALFORMED_JSON; E];
      st_text_area LABEL_BAD_JSON TRUNCATED_RESPONSE 200] W0).
Proof.
  apply (malformed_json_reported
           (fun _ => ApiText TRUNCATED_RESPONSE) "q" MODE_SIMPLE
           TRUNCATED_RESPONSE TRUNCATED_RESPONSE W0); reflexivity.
Defined.

(** *** Running the interpreter again *)

(** [decode_and_publish] returns a value and makes calls that depend on the
    two texts only, and it changes the session state in a way that, done
    twice, is the same as done once. *)
Lemma decode_and_publish_shape (raw_text json_text : string) :
  exists (r : outcome value) (upd : session_state -> session_state)
         (calls : list call),
    (forall w, decode_and_publish raw_text json_text w =
               (r, {| session := upd (session w);
                      screen := (screen w ++ calls)%list |}))
    /\ (forall st, upd (upd st) = upd st).
Proof.
  unfold decode_and_publish.
  destruct (Json.loads json_text) as [[| | | | | |data]| |].
  7: { eexists _, (fun st => {| generation_details := _; results := results st |}), [].
       split; [intros w; run; rewrite List.app_nil_r; reflexivity|reflexivity]. }
  1-7: eexists _, (fun st => {| generation_details := PyNone; results := results st |}), _;
    split; [intros w; run; reflexivity|reflexivity].
  exists Unmodelled, (fun st => st), [].
  split; [|reflexivity]. intros [st sc]. run. now rewrite List.app_nil_r.
Qed.

Lemma generate_fanout_shape (model : model_t) (query mode : string) :
  exists (r : outcome value) (upd : session_state -> session_state)
         (calls : list call),
    (forall w, generate_fanout model query mode w =
               (r, {| session := upd (session w);
                      screen := (screen w ++ calls)%list |}))
    /\ (forall st, upd (upd st) = upd st).
Proof.
  destruct (model (prompt_text query mode)) as [text|b] eqn:Hm.
  - destruct (first_to_last_brace text) as [json_text|] eqn:Hj.
    + destruct (decode_and_publish_shape (strip text) json_text)
        as (r & upd & calls & Hd & Hupd).
      exists r, upd, (generate_content (prompt_text query mode) :: calls).
      split; [|exact Hupd]. intros w.
      rewrite (generate_fanout_text _ _ _ _ _ Hm), Hj.
      cbv [bind emit]. rewrite Hd. run. reflexivity.
    + eexists _, (fun st => st), _. split; [|reflexivity]. intros w.
      rewrite (generate_fanout_text _ _ _ _ _ Hm), Hj. run. reflexivity.
  - destruct b;
      (eexists _, (fun st => {| generation_details := PyNone; results := results st |}), _;
       split; [|reflexivity]; intros w;
       rewrite generate_fanout_eq, Hm; run; reflexivity).
Qed.

(** C9: interpreting the same response a second time, in the world the
    first run left, returns the same value, leaves the same session state
    and makes the same calls again. *)
Theorem interpretation_idempotent
    (model : model_t) (query mode : string) (w : world) :
  let (r1, w1) := generate_fanout model query mode w in
  let (r2, w2) := generate_fanout model query mode w1 in
  r2 = r1 /\ session w2 = session w1
  /\ exists calls,
       screen w1 = (screen w ++ calls)%list
       /\ screen w2 = (screen w1 ++ calls)%list.
Proof.
  destruct (generate_fanout_shape model query mode)
    as (r & upd & calls & Hg & Hupd).
  rewrite (Hg w), Hg. cbn [session screen].
  split; [reflexivity|]. split; [apply Hupd|]. now exists calls.
Qed.

End InterpreterFacts.

(** ** The run button and what is shown *)
Module ScriptFacts.
Import Py App PromptFacts ExtractFacts StripFacts InterpreterFacts.

(** C10: when the query is empty or whitespace only, pressing the button
    clears both keys of the session state, whatever they held, and shows the
    warning; no prompt is sent to the model, and the script goes on to show
    the welcome text. *)
Theorem blank_query_makes_no_call
    (model : model_t) (user_query mode : string) :
  whitespace_only user_query ->
  (forall w,
     run_button model user_query mode w =
     (Returns tt,
      {| session := EMPTY_SESSION;
         screen := (screen w ++ [st_warning [T MSG_EMPTY_QUERY]])%list |}))
  /\ (forall previous,
        script model user_query mode true previous =
        (Returns tt,
         {| session := EMPTY_SESSION;
            screen := [st_warning [T MSG_EMPTY_QUERY];
                       st_markdown [T RULE]; st_info WELCOME;
                       st_markdown [T RULE]; st_markdown [T FOOTER]] |})).
Proof.
  intros H. apply whitespace_only_strip in H.
  assert (Hb : forall w,
     run_button model user_query mode w =
     (Returns tt,
      {| session := EMPTY_SESSION;
         screen := (screen w ++ [st_warning [T MSG_EMPTY_QUERY]])%list |})).
  { intros w. unfold run_button. rewrite H. run. reflexivity. }
  split; [exact Hb|]. intros previous.
  unfold script. cbv [bind]. rewrite Hb. reflexivity.
Qed.

Lemma blank_query_makes_no_call_witness :
  (forall w,
     run_button (fun _ => ApiText "{}") (" " ++ chr 12288 ++ chr 10) MODE_COMPLEX w =
     (Returns tt,
      {| session := EMPTY_SESSION;
         screen := (screen w ++ [st_warning [T MSG_EMPTY_QUERY]])%list |}))
  /\ (forall previous,
        script (fun _ => ApiText "{}") (" " ++ chr 12288 ++ chr 10) MODE_COMPLEX
          true previous =
        (Returns tt,
         {| session := EMPTY_SESSION;
            screen := [st_warning [T MSG_EMPTY_QUERY];
                       st_markdown [T RULE]; st_info WELCOME;
                       st_markdown [T RULE]; st_markdown [T FOOTER]] |})).
Proof.
  apply (blank_query_makes_no_call (fun _ => ApiText "{}")
           (" " ++ chr 12288 ++ chr 10) MODE_COMPLEX).
  apply (ws_more " "). { vm_compute. tauto. }
  apply (ws_more (chr 12288)). { vm_compute. tauto. }
  apply (ws_more (chr 10) EmptyString). { vm_compute. tauto. }
  apply ws_empty.
Defined.

(** *** A response that decodes *)

(** The interpreter on a response whose text between the braces decodes to
    an object: the two fields are published as they were decoded. *)
Lemma generate_fanout_decoded
    (model : model_t) (query mode text json_text : string) (data : dict)
    (w : world) :
  model (prompt_text query mode) = ApiText text ->
  first_to_last_brace text = Some json_text ->
  Json.loads json_text = Json.Ok (PyDict data) ->
  generate_fanout model query mode w =
  (Returns (dict_get "expanded_queries" (PyList []) data),
   published (dict_get "generation_details" (PyDict []) data)
     [generate_content (prompt_text query mode)] w).
Proof.
  intros Hm Hj Hl. rewrite (generate_fanout_text _ _ _ _ _ Hm), Hj.
  unfold decode_and_publish. rewrite Hl. unfold published. run. reflexivity.
Qed.

(** The button with a query that is not blank and a response that decodes. *)
Lemma run_button_decoded
    (model : model_t) (user_query mode text json_text : string) (data : dict)
    (w : world) :
  strip user_query <> EmptyString ->
  model (prompt_text user_query mode) = ApiText text ->
  first_to_last_brace text = Some json_text ->
  Json.loads json_text = Json.Ok (PyDict data) ->
  run_button model user_query mode w =
  (Returns tt,
   {| session :=
        {| generation_details := dict_get "generation_details" (PyDict []) data;
           results := dict_get "expanded_queries" (PyList []) data |};
      screen := (screen w ++ [st_spinner MSG_SPINNER;
                              generate_content (prompt_text user_query mode)])%list |}).
Proof.
  intros Hq Hm Hj Hl. unfold run_button.
  destruct (strip user_query) as [|c r] eqn:Hs; [now elim Hq|].
  cbv [bind set_generation_details set_results emit].
  rewrite (generate_fanout_decoded _ _ _ _ _ _ _ Hm Hj Hl).
  unfold published. run. reflexivity.
Qed.

(** What is shown when the session holds no result. *)
Lemma display_no_result (details : value) (sc : list call) :
  display {| session := {| generation_details := details; results := PyNone |};
             screen := sc |} =
  (Returns tt,
   {| session := {| generation_details := details; results := PyNone |};
      screen :=
        (sc ++ match details with
               | PyNone => [st_markdown [T RULE]; st_info WELCOME]
               | _ => []
               end ++ [st_markdown [T RULE]; st_markdown [T FOOTER]])%list |}).
Proof.
  unfold display. cbv [truthy]. run. destruct details; run; reflexivity.
Qed.

(** C7: a response that decodes to an object whose list of queries is empty
    (given as an empty array or left out) is no failure: the empty list is
    published, not [None], with the generation details as decoded, and the
    script shows the warning for an empty list and neither an error nor the
    welcome text; when the session holds [None] for the result, as after a
    failed parse, that warning is never shown. *)
Theorem empty_query_list_is_not_failure
    (model : model_t) (user_query mode text json_text : string) (data : dict)
    (previous : option session_state) :
  strip user_query <> EmptyString ->
  model (prompt_text user_query mode) = ApiText text ->
  first_to_last_brace text = Some json_text ->
  Json.loads json_text = Json.Ok (PyDict data) ->
  dict_get "expanded_queries" (PyList []) data = PyList [] ->
  script model user_query mode true previous =
  (Returns tt,
   {| session :=
        {| generation_details := dict_get "generation_details" (PyDict []) data;
           results := PyList [] |};
      screen := [st_spinner MSG_SPINNER;
                 generate_content (prompt_text user_query mode);
                 st_warning [T MSG_NO_QUERIES];
                 st_markdown [T RULE]; st_markdown [T FOOTER]] |})
  /\ forall details sc,
       ~ In (st_warning [T MSG_NO_QUERIES])
           (skipn (List.length sc)
              (screen (snd (display
                 {| session := {| generation_details := details; results := PyNone |};
                    screen := sc |})))).
Proof.
  intros Hq Hm Hj Hl He. split.
  - unfold script. cbv [bind].
    rewrite (run_button_decoded _ _ _ _ _ _ _ Hq Hm Hj Hl), He.
    unfold display. cbv [truthy]. run. reflexivity.
  - intros details sc. rewrite display_no_result. cbn [snd screen].
    rewrite List.skipn_app, List.skipn_all, Nat.sub_diag. cbn [skipn List.app].
    destruct details; cbn [List.app In]; intros H;
      repeat (destruct H as [H|H]; [discriminate|]); exact H.
Qed.

(** A response with generation details and an empty array of queries. *)
Definition EMPTY_LIST_RESPONSE : string := quoted
  "{`generation_details`: {`target_query_count`: 12, `reasoning_for_count`: `none fit`}, `expanded_queries`: []}".

Lemma empty_query_list_is_not_failure_witness :
  script (fun _ => ApiText EMPTY_LIST_RESPONSE) "q" MODE_SIMPLE true None =
  (Returns tt,
   {| session :=
        {| generation_details :=
             PyDict [("target_query_count", PyInt 12);
                     ("reasoning_for_count", PyStr "none fit")];
           results := PyList [] |};
      screen := [st_spinner MSG_SPINNER;
                 generate_content (prompt_text "q" MODE_SIMPLE);
                 st_warning [T MSG_NO_QUERIES];
                 st_markdown [T RULE]; st_markdown [T FOOTER]] |})
  /\ forall details sc,
       ~ In (st_warning [T MSG_NO_QUERIES])
           (skipn (List.length sc)
              (screen (snd (display
                 {| session := {| generation_details := details; results := PyNone |};
                    screen := sc |})))).
Proof.
  apply (empty_query_list_is_not_failure
           (fun _ => ApiText EMPTY_LIST_RESPONSE) "q" MODE_SIMPLE
           EMPTY_LIST_RESPONSE EMPTY_LIST_RESPONSE
           [("generation_details",
             PyDict [("target_query_count", PyInt 12);
                     ("reasoning_for_count", PyStr "none fit")]);
            ("expanded_queries", PyList [])] None).
  - discriminate.
  - reflexivity.
  - reflexivity.
  - reflexivity.
  - reflexivity.
Defined.

(** *** The generation plan *)

(** A piece of the script that leaves the session state alone and adds
    calls to the screen. *)
Definition steady {A} (m : M A) : Prop :=
  forall w, exists calls, snd (m w) = shown calls w.

Lemma steady_ret {A} (a : A) : steady (ret a).
Proof. intros w. exists []. unfold shown. run. now rewrite List.app_nil_r; destruct w. Qed.

Lemma steady_raise {A} (e : exception) : steady (@raise A e).
Proof. intros w. exists []. unfold shown. run. now rewrite List.app_nil_r; destruct w. Qed.

Lemma steady_unmodelled {A} : steady (@unmodelled A).
Proof. intros w. exists []. unfold shown. run. now rewrite List.app_nil_r; destruct w. Qed.

Lemma steady_emit (c : call) : steady (emit c).
Proof. intros w. now exists [c]. Qed.

Lemma steady_of_option {A} (e : exception) (o : option A) : steady (of_option e o).
Proof. destruct o; [apply steady_ret|apply steady_raise]. Qed.

Lemma steady_covered {A} (o : option A) : steady (covered o).
Proof. destruct o; [apply steady_ret|apply steady_unmodelled]. Qed.

Lemma steady_bind {A B} (m : M A) (k : A -> M B) :
  steady m -> (forall a, steady (k a)) -> steady (bind m k).
Proof.
  intros Hm Hk w. unfold bind. destruct (Hm w) as [c1 H1].
  destruct (m w) as [[a|e|] w1]; cbn [snd] in H1; subst w1.
  - destruct (Hk a (shown c1 w)) as [c2 H2]. exists (c1 ++ c2)%list.
    rewrite H2. unfold shown. cbn [session screen].
    now rewrite List.app_assoc.
  - now exists c1.
  - now exists c1.
Qed.

Lemma steady_show_table (st : session_state) : steady (show_table st).
Proof.
  unfold show_table.
  repeat first
    [ apply steady_emit | apply steady_covered | apply steady_of_option
    | apply steady_ret | apply steady_bind | intros ? ].
  destruct (Pandas.empty _); [apply steady_ret|apply steady_of_option].
Qed.

(** The calls of lines 194 to 201, for the items of the generation details
    and the number of results. *)
Definition plan_calls (d : dict) (generated_count : nat) : list call :=
  let target_count_model := dict_get "target_query_count" (PyStr "N/A") d in
  let reasoning_model := dict_get "reasoning_for_count" (PyStr "模型未提供") d in
  [st_expander LABEL_PLAN true;
   st_markdown [T MSG_TARGET; V target_count_model; T "`"];
   st_markdown [T MSG_REASON; V reasoning_model; T "*"];
   st_markdown [T MSG_ACTUAL; V (PyInt (Z.of_nat generated_count)); T "`"]]
  ++ match as_int target_count_model with
     | Some t =>
         if (t =? Z.of_nat generated_count)%Z then []
         else [mismatch_warning target_count_model generated_count]
     | None => []
     end.

Lemma show_plan_dict (st : session_state) (d : dict) (n : nat) (w : world) :
  generation_details st = PyDict d -> d <> [] ->
  len (results st) = Some n ->
  show_plan st w = (Returns tt, shown (plan_calls d n) w).
Proof.
  intros Hd Hne Hn. unfold show_plan. rewrite Hd, Hn.
  destruct d as [|item d]; [now elim Hne|].
  cbv [truthy]. unfold plan_calls, shown. run.
  destruct (as_int _) as [t|]; [destruct (t =? Z.of_nat n)%Z|]; run;
    reflexivity.
Qed.

(** What is shown for a list of results that is not empty, with generation
    details that are an object with items: the success line and the plan,
    then whatever the table adds. *)
Lemma display_plan (d : dict) (q : value) (qs : list value) (sc : list call) :
  d <> [] ->
  exists (o : outcome unit) (rest : list call),
    display {| session := {| generation_details := PyDict d;
                             results := PyList (q :: qs) |};
               screen := sc |} =
    (o, {| session := {| generation_details := PyDict d;
                         results := PyList (q :: qs) |};
           screen := (sc ++ st_success MSG_SUCCESS
                         :: plan_calls d (S (List.length qs)) ++ rest)%list |}).
Proof.
  intros Hne. unfold display. cbv [bind get_session covered truthy ret emit].
  cbn [session results screen].
  rewrite (show_plan_dict
             {| generation_details := PyDict d; results := PyList (q :: qs) |}
             d (S (List.length qs)) _ eq_refl Hne eq_refl).
  match goal with |- context [show_table ?st ?w] =>
    destruct (steady_show_table st w) as [calls Hc];
    destruct (show_table st w) as [[[]|e|] w1]; cbn [snd] in Hc; subst w1
  end; unfold shown; cbn [session screen generation_details results];
    eexists _, _; rewrite <- ?List.app_assoc; cbn [List.app];
    rewrite <- ?List.app_assoc; reflexivity.
Qed.

(** C5, as amended: for every response that decodes to an object, the
    interpreter publishes the generation details and the list of queries as
    they were decoded, the declared count untouched by the length of the
    list; and when the list is not empty and the details declare an integer
    count, the script shows the declared count, the actual count, and a
    warning if the two differ. *)
Theorem declared_and_actual_count_published
    (model : model_t) (user_query mode text json_text : string) (data : dict) :
  strip user_query <> EmptyString ->
  model (prompt_text user_query mode) = ApiText text ->
  first_to_last_brace text = Some json_text ->
  Json.loads json_text = Json.Ok (PyDict data) ->
  (forall w,
     generate_fanout model user_query mode w =
     (Returns (dict_get "expanded_queries" (PyList []) data),
      published (dict_get "generation_details" (PyDict []) data)
        [generate_content (prompt_text user_query mode)] w))
  /\ (forall (d : dict) (t : Z) (q : value) (qs : list value)
             (previous : option session_state),
        dict_get "generation_details" (PyDict []) data = PyDict d ->
        dict_lookup "target_query_count" d = Some (PyInt t) ->
        dict_get "expanded_queries" (PyList []) data = PyList (q :: qs) ->
        exists (o : outcome unit) (rest : list call),
          script model user_query mode true previous =
          (o, {| session := {| generation_details := PyDict d;
                               results := PyList (q :: qs) |};
                 screen :=
                   ([st_spinner MSG_SPINNER;
                     generate_content (prompt_text user_query mode);
                     st_success MSG_SUCCESS;
                     st_expander LABEL_PLAN true;
                     st_markdown [T MSG_TARGET; V (PyInt t); T "`"];
                     st_markdown [T MSG_REASON;
                                  V (dict_get "reasoning_for_count"
                                       (PyStr "模型未提供") d);
                                  T "*"];
                     st_markdown [T MSG_ACTUAL;
                                  V (PyInt (Z.of_nat (S (List.length qs))));
                                  T "`"]]
                    ++ (if (t =? Z.of_nat (S (List.length qs)))%Z then []
                        else [mismatch_warning (PyInt t) (S (List.length qs))])
                    ++ rest)%list |})).
Proof.
  intros Hq Hm Hj Hl. split.
  - intros w. exact (generate_fanout_decoded _ _ _ _ _ _ w Hm Hj Hl).
  - intros d t q qs previous Hd Ht He.
    unfold script. cbv [bind].
    rewrite (run_button_decoded _ _ _ _ _ _ _ Hq Hm Hj Hl), Hd, He.
    assert (Hne : d <> []) by (intros ->; discriminate).
    destruct (display_plan d q qs
                ([] ++ [st_spinner MSG_SPINNER;
                        generate_content (prompt_text user_query mode)]) Hne)
      as (o & rest & Hdisp).
    cbn [screen] in *. rewrite Hdisp. exists o, rest. f_equal. f_equal.
    unfold plan_calls, dict_get. rewrite Ht. cbn [as_int List.app].
    now destruct (t =? Z.of_nat (S (List.length qs)))%Z.
Qed.

(** A response that declares 12 queries and holds one. *)
Definition MISMATCH_RESPONSE : string := quoted
  "{`generation_details`: {`target_query_count`: 12, `reasoning_for_count`: `broad`}, `expanded_queries`: [{`query`: `a`, `type`: `related`, `user_intent`: `b`, `reasoning`: `c`}]}".

Definition MISMATCH_RECORD : value :=
  PyDict [("query", PyStr "a"); ("type", PyStr "related");
          ("user_intent", PyStr "b"); ("reasoning", PyStr "c")].

Definition MISMATCH_DETAILS : dict :=
  [("target_query_count", PyInt 12); ("reasoning_for_count", PyStr "broad")].

Lemma declared_and_actual_count_published_witness :
  exists (o : outcome unit) (rest : list call),
    script (fun _ => ApiText MISMATCH_RESPONSE) "q" MODE_SIMPLE true None =
    (o, {| session := {| generation_details := PyDict MISMATCH_DETAILS;
                         results := PyList [MISMATCH_RECORD] |};
           screen :=
             ([st_spinner MSG_SPINNER;
               generate_content (prompt_text "q" MODE_SIMPLE);
               st_success MSG_SUCCESS;
               st_expander LABEL_PLAN true;
               st_markdown [T MSG_TARGET; V (PyInt 12); T "`"];
               st_markdown [T MSG_REASON; V (PyStr "broad"); T "*"];
               st_markdown [T MSG_ACTUAL; V (PyInt 1); T "`"]]
              ++ [mismatch_warning (PyInt 12) 1] ++ rest)%list |}).
Proof.
  destruct (declared_and_actual_count_published
              (fun _ => ApiText MISMATCH_RESPONSE) "q" MODE_SIMPLE
              MISMATCH_RESPONSE MISMATCH_RESPONSE
              [("generation_details", PyDict MISMATCH_DETAILS);
               ("expanded_queries", PyList [MISMATCH_RECORD])])
    as [_ H]; [discriminate|reflexivity|reflexivity|reflexivity|].
  exact (H MISMATCH_DETAILS 12%Z MISMATCH_RECORD [] None
           eq_refl eq_refl eq_refl).
Defined.

(** A call that shows the value [v]. *)
Definition shows (v : value) (c : call) : Prop :=
  match c with
  | st_markdown msg | st_warning msg | st_error msg => In (V v) msg
  | _ => False
  end.

Lemma script_empty_list_response :
  script (fun _ => ApiText EMPTY_LIST_RESPONSE) "q" MODE_SIMPLE true None =
  (Returns tt,
   {| session :=
        {| generation_details :=
             PyDict [("target_query_count", PyInt 12);
                     ("reasoning_for_count", PyStr "none fit")];
           results := PyList [] |};
      screen := [st_spinner MSG_SPINNER;
                 generate_content (prompt_text "q" MODE_SIMPLE);
                 st_warning [T MSG_NO_QUERIES];
                 st_markdown [T RULE]; st_markdown [T FOOTER]] |}).
Proof. vm_compute. reflexivity. Qed.

(** C5 as stated fails for an empty list: the response declares 12 queries
    and holds none; both facts are in the session state, but no call of the
    script shows the declared count. *)
Lemma declared_count_hidden_for_empty_list :
  let w := snd (script (fun _ => ApiText EMPTY_LIST_RESPONSE)
                  "q" MODE_SIMPLE true None) in
  generation_details (session w) =
    PyDict [("target_query_count", PyInt 12);
            ("reasoning_for_count", PyStr "none fit")]
  /\ results (session w) = PyList []
  /\ forall c, In c (screen w) -> ~ shows (PyInt 12) c.
Proof.
  rewrite script_empty_list_response. cbn [snd session screen].
  split; [reflexivity|]. split; [reflexivity|].
  intros c Hc Hs. cbn [In] in Hc.
  repeat (destruct Hc as [<-|Hc];
          [cbn [shows In] in Hs;
           repeat (destruct Hs as [Hs|Hs]; [discriminate|]); exact Hs|]).
  exact Hc.
Qed.

End ScriptFacts.

(** ** The table and the CSV export *)
Module TableFacts.
Import Py Pandas App InterpreterFacts ScriptFacts.

(** The records of the published list, as the table and the export show
    them: the four columns in their fixed order, a missing field left
    empty. *)
Definition row_cells (r : list (string * string)) : list (option string) :=
  map (fun c => field c r) COLUMNS.


Definition csv_row (r : list (string * string)) : string :=
  join_fields (map cell_text (row_cells r)) ++ str1 LF.

Fixpoint csv_rows (recs : list (list (string * string))) : string :=
  match recs with
  | [] => EmptyString
  | r :: recs' => csv_row r ++ csv_rows recs'
  end.

Definition CSV_HEADER : string := "query,type,user_intent,reasoning" ++ str1 LF.

Definition csv_text (recs : list (list (string * string))) : string :=
  CSV_HEADER ++ csv_rows recs.





(** *** Columns *)









(** *** The text of the export *)




(** *** Surrogates: the export can be encoded *)
















(** *** Lines *)







(** *** The export of a published list *)



Definition TWO_RECORDS_ITEMS : list (list (string * string)) :=
  [[("query", "a"); ("type", "t,1"); ("user_intent", "u"); ("reasoning", "r")];
   [("query", "q2"); ("reasoning", "r2"); ("type", "t2"); ("extra", "x")]].



(** The text offered for the two records: a missing field is an empty
    cell, a field with a comma is quoted, the extra key is dropped. *)
Example csv_text_two_records :
  csv_text TWO_RECORDS_ITEMS =
  "query,type,user_intent,reasoning" ++ str1 LF
  ++ "a," ++ str1 DQ ++ "t,1" ++ str1 DQ ++ ",u,r" ++ str1 LF
  ++ "q2,t2,,r2" ++ str1 LF.
Proof. reflexivity. Qed.






(** A response whose only record has no [reasoning]. *)
Definition MISSING_FIELD_RESPONSE : string := quoted
  "{`expanded_queries`: [{`query`: `a`, `type`: `b`, `user_intent`: `c`}]}".

(** C6: the code at the failing input.  The response decodes and the record
    without [reasoning] is published, but selecting the four columns raises
    [KeyError]: the script run ends after the heading of the results, with
    no table and no download. *)
Theorem missing_column_raises_key_error :
  script (fun _ => ApiText MISSING_FIELD_RESPONSE) "q" MODE_SIMPLE true None =
  (Raises KeyError,
   {| session :=
        {| generation_details := PyDict [];
           results := PyList [PyDict [("query", PyStr "a"); ("type", PyStr "b");
                                      ("user_intent", PyStr "c")]] |};
      screen := [st_spinner MSG_SPINNER;
                 generate_content (PromptFacts.prompt_text "q" MODE_SIMPLE);
                 st_success MSG_SUCCESS;
                 st_markdown [T RULE];
                 st_subheader HEADING_RESULTS] |}).
Proof. vm_compute. reflexivity. Qed.

End TableFacts.

(** ** Round trip of a schema instance *)

(** Instances of the documented schema and their JSON texts. *)
Module Schema.
Import Py.

Record query_record : Type := {
  q_query : string;
  q_type : string;
  q_user_intent : string;
  q_reasoning : string
}.

Record instance : Type := {
  i_target_query_count : Z;
  i_reasoning_for_count : string;
  i_expanded_queries : list query_record
}.



Definition hex_digit (n : nat) : ascii :=
  match n with
  | 0 => "0" | 1 => "1" | 2 => "2" | 3 => "3" | 4 => "4" | 5 => "5"
  | 6 => "6" | 7 => "7" | 8 => "8" | 9 => "9" | 10 => "a" | 11 => "b"
  | 12 => "c" | 13 => "d" | 14 => "e" | _ => "f"
  end%char.

(** A character inside a JSON string literal: the quote, the backslash and
    the control characters are escaped, any other byte stands for itself. *)
Definition escape_char (c : ascii) : string :=
  let n := nat_of_ascii c in
  if Ascii.eqb c DQ then String "\" (str1 DQ)
  else if Ascii.eqb c "\" then "\\"
  else if (n =? 10)%nat then "\n"
  else if (n =? 13)%nat then "\r"
  else if (n =? 9)%nat then "\t"
  else if (n =? 8)%nat then "\b"
  else if (n =? 12)%nat then "\f"
  else if (n <? 32)%nat then
    "\u00" ++ str2 (hex_digit (n / 16)) (hex_digit (n mod 16))
  else str1 c.

Fixpoint escape (s : string) : string :=
  match s with
  | EmptyString => EmptyString
  | String c r => escape_char c ++ escape r
  end.

Definition json_string (s : string) : string :=
  String DQ (escape s ++ str1 DQ).

(** A member of an object; [g] is the blank text written wherever JSON
    allows blanks. *)
Definition member (g key text : string) : string :=
  json_string key ++ g ++ ":" ++ g ++ text.

Definition record_text (g : string) (r : query_record) : string :=
  "{" ++ g ++ member g "query" (json_string (q_query r))
  ++ g ++ "," ++ g ++ member g "type" (json_string (q_type r))
  ++ g ++ "," ++ g ++ member g "user_intent" (json_string (q_user_intent r))
  ++ g ++ "," ++ g ++ member g "reasoning" (json_string (q_reasoning r))
  ++ g ++ "}".

Fixpoint records_text (g : string) (rs : list query_record) : string :=
  match rs with
  | [] => EmptyString
  | r :: rs' =>
      match rs' with
      | [] => record_text g r
      | _ => record_text g r ++ g ++ "," ++ g ++ records_text g rs'
      end
  end.

Definition array_text (g : string) (rs : list query_record) : string :=
  "[" ++ g ++ records_text g rs ++ g ++ "]".

Definition details_text (g : string) (i : instance) : string :=
  "{" ++ g ++ member g "target_query_count" (str_int (i_target_query_count i))
  ++ g ++ "," ++ g
  ++ member g "reasoning_for_count" (json_string (i_reasoning_for_count i))
  ++ g ++ "}".

(** The text of an instance of the schema. *)
Definition instance_text (g : string) (i : instance) : string :=
  "{" ++ g ++ member g "generation_details" (details_text g i)
  ++ g ++ "," ++ g
  ++ member g "expanded_queries" (array_text g (i_expanded_queries i))
  ++ g ++ "}".


End Schema.

Module SchemaFacts.
Import Py Json Schema.

(** *** String literals *)









(** *** Integers *)










(** *** Blanks *)


Lemma skip_ws_solid (c : ascii) (r : string) :
  is_ws c = false -> skip_ws (String c r) = String c r.
Proof. intros H. cbn [skip_ws]. now rewrite H. Qed.


(** *** The scanner, one call at a time *)




Lemma object_items_S (fuel : nat) (pairs : dict) (s : string) :
  object_items (S fuel) pairs s =
  match scanstring s with
  | None => JSONDecodeError
  | Some (key, r) =>
      match skip_ws r with
      | EmptyString => JSONDecodeError
      | String colon r1 =>
          if negb (Ascii.eqb colon ":") then JSONDecodeError else
          match scan_once fuel (skip_ws r1) with
          | Ok (v, r2) =>
              let pairs' := dict_set key v pairs in
              match skip_ws r2 with
              | String c r3 =>
                  if Ascii.eqb c "}" then Ok (PyDict pairs', r3)
                  else if Ascii.eqb c "," then
                    match skip_ws r3 with
                    | String q r4 =>
                        if Ascii.eqb q DQ then object_items fuel pairs' r4
                        else JSONDecodeError
                    | EmptyString => JSONDecodeError
                    end
                  else JSONDecodeError
              | EmptyString => JSONDecodeError
              end
          | JSONDecodeError => JSONDecodeError
          | OutOfFuel => OutOfFuel
          end
      end
  end.
Proof. reflexivity. Qed.



(** *** Records, details, the array of records *)




Lemma array_items_S (fuel : nat) (values : list value) (s : string) :
  array_items (S fuel) values s =
  match scan_once fuel s with
  | Ok (v, r) =>
      let values' := (values ++ [v])%list in
      match skip_ws r with
      | String c r1 =>
          if Ascii.eqb c "]" then Ok (PyList values', r1)
          else if Ascii.eqb c "," then array_items fuel values' (skip_ws r1)
          else JSONDecodeError
      | EmptyString => JSONDecodeError
      end
  | JSONDecodeError => JSONDecodeError
  | OutOfFuel => OutOfFuel
  end.
Proof. reflexivity. Qed.





(** *** The instance *)













(** The text of an instance written with no blanks. *)
Example instance_text_compact :
  instance_text EmptyString
    {| i_target_query_count := 3; i_reasoning_for_count := "r";
       i_expanded_queries :=
         [ {| q_query := "a"; q_type := "b"; q_user_intent := "c";
              q_reasoning := "d" ++ str1 Pandas.LF |} ] |}
  = quoted "{`generation_details`:{`target_query_count`:3,`reasoning_for_count`:`r`},`expanded_queries`:[{`query`:`a`,`type`:`b`,`user_intent`:`c`,`reasoning`:`d\n`}]}".
Proof. reflexivity. Qed.

End SchemaFacts.

(** ** The decoder never runs out of fuel *)
Module DecoderFacts.
Import Py Json.

Lemma skip_ws_length (s : string) :
  String.length (skip_ws s) <= String.length s.
Proof.
  induction s as [|c r IH]; [apply le_n|].
  cbn [skip_ws]. destruct (is_ws c); cbn [String.length]; lia.
Qed.

(** What is left after a step of the text [s]. *)
Lemma skip_ws_cons (s : string) (c : ascii) (r : string) :
  skip_ws s = String c r -> String.length r < String.length s.
Proof.
  intros H. pose proof (skip_ws_length s) as L. rewrite H in L.
  cbn [String.length] in L. lia.
Qed.

Lemma scan_units_shorter (s : string) (us : list unit) (rest : string) :
  scan_units s = Some (us, rest) -> String.length rest < String.length s.
Proof.
  remember (String.length s) as n eqn:Hn. revert s us rest Hn.
  induction n as [n IH] using lt_wf_ind. intros s us rest Hn.
  destruct s as [|c r]; [discriminate|]. cbn [scan_units].
  destruct (Ascii.eqb c DQ).
  { intros [= <- <-]. subst n. cbn [String.length]. lia. }
  destruct (Ascii.eqb c "\").
  - destruct r as [|e r']; [discriminate|].
    destruct (Ascii.eqb e "u").
    + destruct r' as [|h1 [|h2 [|h3 [|h4 r'']]]]; try discriminate.
      destruct (decode_uXXXX h1 h2 h3 h4); [|discriminate].
      destruct (scan_units r'') as [[us' rest']|] eqn:E; [|discriminate].
      intros [= <- <-].
      pose proof (IH (String.length r'') ltac:(subst n; cbn; lia) r'' us' rest' eq_refl E).
      subst n. cbn [String.length]. lia.
    + destruct (BACKSLASH e); [|discriminate].
      destruct (scan_units r') as [[us' rest']|] eqn:E; [|discriminate].
      intros [= <- <-].
      pose proof (IH (String.length r') ltac:(subst n; cbn; lia) r' us' rest' eq_refl E).
      subst n. cbn [String.length]. lia.
  - destruct (nat_of_ascii c <? 32)%nat; [discriminate|].
    destruct (scan_units r) as [[us' rest']|] eqn:E; [|discriminate].
    intros [= <- <-].
    pose proof (IH (String.length r) ltac:(subst n; cbn; lia) r us' rest' eq_refl E).
    subst n. cbn [String.length]. lia.
Qed.

Lemma scanstring_shorter (s str rest : string) :
  scanstring s = Some (str, rest) -> String.length rest < String.length s.
Proof.
  unfold scanstring. destruct (scan_units s) as [[us r]|] eqn:E; [|discriminate].
  intros [= _ <-]. exact (scan_units_shorter _ _ _ E).
Qed.

Lemma span_digits_length (s ds rest : string) :
  span_digits s = (ds, rest) -> String.length rest <= String.length s.
Proof.
  revert ds rest. induction s as [|c r IH]; intros ds rest; cbn [span_digits].
  - intros [= _ <-]. apply le_n.
  - destruct (is_digit c).
    + destruct (span_digits r) as [ds' rest'] eqn:E. intros [= _ <-].
      pose proof (IH _ _ eq_refl). cbn [String.length]. lia.
    + intros [= _ <-]. apply le_n.
Qed.

Lemma after_length (p s r : string) :
  after p s = Some r -> String.length s = String.length p + String.length r.
Proof.
  revert s. induction p as [|a p IH]; intros s; cbn [after].
  - now intros [= ->].
  - destruct s as [|b s]; [discriminate|].
    destruct (Ascii.eqb a b); [|discriminate].
    intros H. cbn [String.length]. now rewrite (IH _ H).
Qed.

Lemma scan_integer_shorter (s i r : string) :
  scan_integer s = Some (i, r) -> String.length r < String.length s.
Proof.
  unfold scan_integer. destruct s as [|c s']; [discriminate|].
  destruct (Ascii.eqb c "-").
  - destruct s' as [|d s'']; [discriminate|].
    destruct (Ascii.eqb d "0"); [intros [= _ <-]; cbn; lia|].
    destruct (is_digit d); [|discriminate].
    destruct (span_digits (String d s'')) as [ds rest] eqn:E.
    intros [= _ <-]. pose proof (span_digits_length _ _ _ E) as L.
    cbn [String.length] in *. lia.
  - destruct (Ascii.eqb c "0"); [intros [= _ <-]; cbn; lia|].
    destruct (is_digit c) eqn:Hc; [|discriminate].
    destruct (span_digits (String c s')) as [ds rest] eqn:E.
    intros [= _ <-]. cbn [span_digits] in E. rewrite Hc in E.
    destruct (span_digits s') as [ds' rest'] eqn:E'. injection E as _ <-.
    pose proof (span_digits_length _ _ _ E') as L.
    cbn [String.length]. lia.
Qed.

Lemma scan_frac_length (s f r : string) :
  scan_frac s = Some (f, r) -> String.length r <= String.length s.
Proof.
  unfold scan_frac. destruct s as [|c s']; [discriminate|].
  destruct (Ascii.eqb c "."); [|discriminate].
  destruct (span_digits s') as [ds rest] eqn:E.
  pose proof (span_digits_length _ _ _ E) as L.
  destruct ds; [discriminate|]. intros [= _ <-]. cbn [String.length]. lia.
Qed.

Lemma scan_exp_length (s e r : string) :
  scan_exp s = Some (e, r) -> String.length r <= String.length s.
Proof.
  unfold scan_exp. destruct s as [|c s']; [discriminate|].
  destruct (Ascii.eqb c "e" || Ascii.eqb c "E"); [|discriminate].
  assert (H : forall sign r1 ds rest,
             String.length r1 <= String.length s' ->
             span_digits r1 = (ds, rest) ->
             match ds with
             | EmptyString => None
             | String _ _ => Some (String c (sign ++ ds), rest)
             end = Some (e, r) ->
             String.length r <= String.length (String c s')).
  { intros sign r1 ds rest L E. pose proof (span_digits_length _ _ _ E) as L'.
    destruct ds; [discriminate|]. intros [= _ <-]. cbn [String.length]. lia. }
  destruct s' as [|d s''].
  - destruct (span_digits EmptyString) as [ds rest] eqn:E.
    apply (H EmptyString EmptyString ds rest (le_n _) E).
  - destruct (Ascii.eqb d "-"); [|destruct (Ascii.eqb d "+")].
    + destruct (span_digits s'') as [ds rest] eqn:E.
      apply (H "-" s'' ds rest); [cbn; lia|exact E].
    + destruct (span_digits s'') as [ds rest] eqn:E.
      apply (H "+" s'' ds rest); [cbn; lia|exact E].
    + destruct (span_digits (String d s'')) as [ds rest] eqn:E.
      apply (H EmptyString (String d s'') ds rest (le_n _) E).
Qed.

Lemma match_number_shorter (s : string) (v : value) (r : string) :
  match_number s = Some (v, r) -> String.length r < String.length s.
Proof.
  unfold match_number.
  destruct (scan_integer s) as [[i r0]|] eqn:Ei; [|discriminate].
  pose proof (scan_integer_shorter _ _ _ Ei) as L0.
  destruct (scan_frac r0) as [[f r1]|] eqn:Ef.
  - pose proof (scan_frac_length _ _ _ Ef) as L1.
    destruct (scan_exp r1) as [[e r2]|] eqn:Ee.
    + pose proof (scan_exp_length _ _ _ Ee) as L2.
      destruct f; [destruct e|]; intros [= _ <-]; lia.
    + destruct f; intros [= _ <-]; lia.
  - destruct (scan_exp r0) as [[e r2]|] eqn:Ee.
    + pose proof (scan_exp_length _ _ _ Ee) as L2.
      destruct e; intros [= _ <-]; lia.
    + intros [= _ <-]. lia.
Qed.

Lemma scan_atom_shorter (s : string) (v : value) (r : string) :
  scan_atom s = Ok (v, r) -> String.length r < String.length s.
Proof.
  unfold scan_atom.
  repeat match goal with
         | |- context [after ?p s] =>
             let E := fresh "E" in
             destruct (after p s) eqn:E;
             [apply after_length in E; cbn [String.length] in E;
              intros [= _ <-]; lia|]
         | |- context [match_number s] =>
             let E := fresh "E" in
             destruct (match_number s) as [[v' r']|] eqn:E;
             [intros [= _ <-]; exact (match_number_shorter _ _ _ E)|]
         end.
  discriminate.
Qed.

(** *** One call of each function of the scanner *)

Lemma scan_once_S (fuel : nat) (s : string) :
  scan_once (S fuel) s =
  match s with
  | EmptyString => JSONDecodeError
  | String c r =>
      if Ascii.eqb c DQ then
        match scanstring r with
        | Some (str, rest) => Ok (PyStr str, rest)
        | None => JSONDecodeError
        end
      else if Ascii.eqb c "{" then JSONObject fuel r
      else if Ascii.eqb c "[" then JSONArray fuel r
      else scan_atom s
  end.
Proof. reflexivity. Qed.

Lemma JSONObject_S (fuel : nat) (s : string) :
  JSONObject (S fuel) s =
  match skip_ws s with
  | EmptyString => JSONDecodeError
  | String c r =>
      if Ascii.eqb c "}" then Ok (PyDict [], r)
      else if Ascii.eqb c DQ then object_items fuel [] r
      else JSONDecodeError
  end.
Proof. reflexivity. Qed.

Lemma JSONArray_S (fuel : nat) (s : string) :
  JSONArray (S fuel) s =
  match skip_ws s with
  | EmptyString => JSONDecodeError
  | String c r =>
      if Ascii.eqb c "]" then Ok (PyList [], r)
      else array_items fuel [] (String c r)
  end.
Proof. reflexivity. Qed.

(** *** Every value read takes at least one character *)

Definition shorter (fuel : nat) : Prop :=
  (forall s v r, scan_once fuel s = Ok (v, r) ->
                 String.length r < String.length s)
  /\ (forall s v r, JSONObject fuel s = Ok (v, r) ->
                    String.length r < String.length s)
  /\ (forall pairs s v r, object_items fuel pairs s = Ok (v, r) ->
                          String.length r < String.length s)
  /\ (forall s v r, JSONArray fuel s = Ok (v, r) ->
                    String.length r < String.length s)
  /\ (forall values s v r, array_items fuel values s = Ok (v, r) ->
                           String.length r < String.length s).

Lemma shorter_all (fuel : nat) : shorter fuel.
Proof.
  induction fuel as [|fuel (IHs & IHo & IHi & IHa & IHe)].
  { repeat split; intros; discriminate. }
  repeat split.
  - intros s v r. rewrite scan_once_S. destruct s as [|c s']; [discriminate|].
    destruct (Ascii.eqb c DQ).
    { destruct (scanstring s') as [[str rest]|] eqn:E; [|discriminate].
      intros [= _ <-]. apply scanstring_shorter in E. cbn [String.length]. lia. }
    destruct (Ascii.eqb c "{").
    { intros H. apply IHo in H. cbn [String.length]. lia. }
    destruct (Ascii.eqb c "[").
    { intros H. apply IHa in H. cbn [String.length]. lia. }
    apply scan_atom_shorter.
  - intros s v r. rewrite JSONObject_S.
    destruct (skip_ws s) as [|c s'] eqn:E; [discriminate|].
    apply skip_ws_cons in E.
    destruct (Ascii.eqb c "}"); [intros [= _ <-]; exact E|].
    destruct (Ascii.eqb c DQ); [|discriminate].
    intros H. apply IHi in H. lia.
  - intros pairs s v r. rewrite SchemaFacts.object_items_S.
    destruct (scanstring s) as [[key r0]|] eqn:E0; [|discriminate].
    apply scanstring_shorter in E0.
    destruct (skip_ws r0) as [|colon r1] eqn:E1; [discriminate|].
    apply skip_ws_cons in E1.
    destruct (negb (Ascii.eqb colon ":")); [discriminate|].
    destruct (scan_once fuel (skip_ws r1)) as [[v2 r2]| |] eqn:E2;
      try discriminate.
    apply IHs in E2. pose proof (skip_ws_length r1) as L1. cbv zeta.
    destruct (skip_ws r2) as [|c r3] eqn:E3; [discriminate|].
    apply skip_ws_cons in E3.
    destruct (Ascii.eqb c "}"); [intros [= _ <-]; lia|].
    destruct (Ascii.eqb c ","); [|discriminate].
    destruct (skip_ws r3) as [|q r4] eqn:E4; [discriminate|].
    apply skip_ws_cons in E4.
    destruct (Ascii.eqb q DQ); [|discriminate].
    intros H. apply IHi in H. lia.
  - intros s v r. rewrite JSONArray_S.
    destruct (skip_ws s) as [|c s'] eqn:E; [discriminate|].
    pose proof (skip_ws_length s) as L. rewrite E in L.
    destruct (Ascii.eqb c "]").
    + intros [= _ <-]. cbn [String.length] in L. lia.
    + intros H. apply IHe in H. lia.
  - intros values s v r. rewrite SchemaFacts.array_items_S.
    destruct (scan_once fuel s) as [[v1 r1]| |] eqn:E1; try discriminate.
    apply IHs in E1. cbv zeta.
    destruct (skip_ws r1) as [|c r2] eqn:E2; [discriminate|].
    apply skip_ws_cons in E2.
    destruct (Ascii.eqb c "]"); [intros [= _ <-]; lia|].
    destruct (Ascii.eqb c ","); [|discriminate].
    intros H. apply IHe in H. pose proof (skip_ws_length r2). lia.
Qed.

(** *** Three units of fuel for each character are enough *)

Lemma scan_atom_fuel (s : string) : scan_atom s <> OutOfFuel.
Proof.
  unfold scan_atom.
  repeat match goal with
         | |- context [match ?x with _ => _ end] => destruct x
         end; discriminate.
Qed.

Definition fueled (fuel : nat) : Prop :=
  (forall s, 3 * String.length s + 1 <= fuel -> scan_once fuel s <> OutOfFuel)
  /\ (forall s, 3 * String.length s + 3 <= fuel ->
                JSONObject fuel s <> OutOfFuel)
  /\ (forall pairs s, 3 * String.length s + 2 <= fuel ->
                      object_items fuel pairs s <> OutOfFuel)
  /\ (forall s, 3 * String.length s + 3 <= fuel ->
                JSONArray fuel s <> OutOfFuel)
  /\ (forall values s, 3 * String.length s + 2 <= fuel ->
                       array_items fuel values s <> OutOfFuel).

Lemma fueled_all (fuel : nat) : fueled fuel.
Proof.
  induction fuel as [|fuel (IHs & IHo & IHi & IHa & IHe)].
  { repeat split; intros; lia. }
  destruct (shorter_all fuel) as (Ss & So & Si & Sa & Se).
  repeat split.
  - intros s L. rewrite scan_once_S. destruct s as [|c s']; [discriminate|].
    cbn [String.length] in L.
    destruct (Ascii.eqb c DQ).
    { destruct (scanstring s') as [[str rest]|]; discriminate. }
    destruct (Ascii.eqb c "{"); [apply IHo; lia|].
    destruct (Ascii.eqb c "["); [apply IHa; lia|].
    apply scan_atom_fuel.
  - intros s L. rewrite JSONObject_S.
    destruct (skip_ws s) as [|c s'] eqn:E; [discriminate|].
    apply skip_ws_cons in E.
    destruct (Ascii.eqb c "}"); [discriminate|].
    destruct (Ascii.eqb c DQ); [|discriminate].
    apply IHi. lia.
  - intros pairs s L. rewrite SchemaFacts.object_items_S.
    destruct (scanstring s) as [[key r0]|] eqn:E0; [|discriminate].
    apply scanstring_shorter in E0.
    destruct (skip_ws r0) as [|colon r1] eqn:E1; [discriminate|].
    apply skip_ws_cons in E1.
    destruct (negb (Ascii.eqb colon ":")); [discriminate|].
    pose proof (skip_ws_length r1) as L1.
    destruct (scan_once fuel (skip_ws r1)) as [[v2 r2]| |] eqn:E2;
      [|discriminate|exfalso; revert E2; apply IHs; lia].
    apply Ss in E2. cbv zeta.
    destruct (skip_ws r2) as [|c r3] eqn:E3; [discriminate|].
    apply skip_ws_cons in E3.
    destruct (Ascii.eqb c "}"); [discriminate|].
    destruct (Ascii.eqb c ","); [|discriminate].
    destruct (skip_ws r3) as [|q r4] eqn:E4; [discriminate|].
    apply skip_ws_cons in E4.
    destruct (Ascii.eqb q DQ); [|discriminate].
    apply IHi. lia.
  - intros s L. rewrite JSONArray_S.
    destruct (skip_ws s) as [|c s'] eqn:E; [discriminate|].
    pose proof (skip_ws_length s) as L'. rewrite E in L'.
    destruct (Ascii.eqb c "]"); [discriminate|].
    apply IHe. lia.
  - intros values s L. rewrite SchemaFacts.array_items_S.
    destruct (scan_once fuel s) as [[v1 r1]| |] eqn:E1;
      [|discriminate|exfalso; revert E1; apply IHs; lia].
    apply Ss in E1. cbv zeta.
    destruct (skip_ws r1) as [|c r2] eqn:E2; [discriminate|].
    apply skip_ws_cons in E2.
    destruct (Ascii.eqb c "]"); [discriminate|].
    destruct (Ascii.eqb c ","); [|discriminate].
    pose proof (skip_ws_length r2). apply IHe. lia.
Qed.

(** [loads] always ends with a value or with [JSONDecodeError]. *)
Lemma loads_total (s : string) : loads s <> OutOfFuel.
Proof.
  unfold loads.
  destruct (scan_once (3 * String.length s + 1) (skip_ws s))
    as [[v rest]| |] eqn:E.
  - destruct (skip_ws rest); discriminate.
  - discriminate.
  - exfalso. revert E. apply fueled_all.
    pose proof (skip_ws_length s). lia.
Qed.

(** The interpreter is modelled for every response. *)
Lemma decode_and_publish_covered (raw_text json_text : string) (w : App.world) :
  fst (App.decode_and_publish raw_text json_text w) <> App.Unmodelled.
Proof.
  unfold App.decode_and_publish. pose proof (loads_total json_text) as H.
  destruct (loads json_text) as [[| | | | | |data]| |];
    try discriminate. now elim H.
Qed.

(** *** A text that starts with a brace decodes to a [dict] *)

Lemma object_items_dict (fuel : nat) (pairs : dict) (s : string)
    (v : value) (r : string) :
  object_items fuel pairs s = Ok (v, r) -> exists d, v = PyDict d.
Proof.
  revert pairs s. induction fuel as [|fuel IH]; intros pairs s; [discriminate|].
  rewrite SchemaFacts.object_items_S.
  destruct (scanstring s) as [[key r0]|]; [|discriminate].
  destruct (skip_ws r0) as [|colon r1]; [discriminate|].
  destruct (negb (Ascii.eqb colon ":")); [discriminate|].
  destruct (scan_once fuel (skip_ws r1)) as [[v2 r2]| |]; try discriminate.
  cbv zeta. destruct (skip_ws r2) as [|c r3]; [discriminate|].
  destruct (Ascii.eqb c "}"); [intros [= <- _]; eexists; reflexivity|].
  destruct (Ascii.eqb c ","); [|discriminate].
  destruct (skip_ws r3) as [|q r4]; [discriminate|].
  destruct (Ascii.eqb q DQ); [|discriminate].
  apply IH.
Qed.

Lemma loads_brace_dict (r : string) (v : value) :
  loads (String "{" r) = Ok v -> exists d, v = PyDict d.
Proof.
  unfold loads. rewrite SchemaFacts.skip_ws_solid by reflexivity.
  replace (3 * String.length (String "{" r) + 1)
    with (S (S (3 * String.length r + 2))) by (cbn [String.length]; lia).
  rewrite scan_once_S. change (Ascii.eqb "{" DQ) with false.
  change (Ascii.eqb "{" "{") with true. cbv iota. rewrite JSONObject_S.
  destruct (skip_ws r) as [|c r0]; [discriminate|].
  destruct (Ascii.eqb c "}").
  { destruct (skip_ws r0); [|discriminate]. intros [= <-]. now exists []. }
  destruct (Ascii.eqb c DQ); [|discriminate].
  destruct (object_items _ [] r0) as [[v' r']| |] eqn:E; try discriminate.
  destruct (skip_ws r'); [|discriminate]. intros [= <-].
  exact (object_items_dict _ _ _ _ _ E).
Qed.

(** What the interpreter extracts, if it decodes, decodes to a [dict]: the
    handler for other values is never reached from [json.loads]. *)
Lemma extracted_decodes_to_dict (text json_text : string) (v : value) :
  ExtractFacts.first_to_last_brace text = Some json_text ->
  loads json_text = Ok v -> exists d, v = PyDict d.
Proof.
  intros H. destruct (ExtractFacts.first_to_last_brace_some _ _ H)
    as (pre & mid & post & _ & _ & _ & ->).
  apply loads_brace_dict.
Qed.

End DecoderFacts.

(** ** More about the interpreter: every answer of the model *)
Module ResponseFacts.
Import Py Json App PromptFacts ExtractFacts StripFacts InterpreterFacts
       ScriptFacts Schema SchemaFacts DecoderFacts.

(** *** A JSON text inside a longer response *)





(** *** Text after the value *)



(** *** The outcomes of decoding *)

(** The world after the handler of a malformed JSON text. *)
Definition malformed (json_text : string) (calls : list call) (w : world) : world :=
  published PyNone
    (calls ++ [st_error [T MSG_MALFORMED_JSON; E];
               st_text_area LABEL_BAD_JSON json_text 200]) w.

(** Decoding what was found between the braces ends in one of two ways. *)
Lemma decode_and_publish_cases (text json_text : string) :
  first_to_last_brace text = Some json_text ->
  (loads json_text = JSONDecodeError
   /\ forall raw_text w,
        decode_and_publish raw_text json_text w =
        (Returns PyNone, malformed json_text [] w))
  \/ (exists data,
        loads json_text = Ok (PyDict data)
        /\ forall raw_text w,
             decode_and_publish raw_text json_text w =
             (Returns (dict_get "expanded_queries" (PyList []) data),
              published (dict_get "generation_details" (PyDict []) data) [] w)).
Proof.
  intros Hj. unfold decode_and_publish, malformed, published.
  pose proof (loads_total json_text) as Ht.
  destruct (loads json_text) as [v| |] eqn:Hl; [|left|now elim Ht].
  - destruct (extracted_decodes_to_dict _ _ _ Hj Hl) as [data ->].
    right. exists data. split; [reflexivity|]. intros raw_text w. run.
    now rewrite List.app_nil_r.
  - split; [reflexivity|]. intros raw_text w. run. reflexivity.
Qed.

(** The number of prompts sent to the model among some calls. *)
Fixpoint model_calls (calls : list call) : nat :=
  match calls with
  | [] => 0
  | generate_content _ :: calls' => S (model_calls calls')
  | _ :: calls' => model_calls calls'
  end.

Lemma model_calls_app (a b : list call) :
  model_calls (a ++ b) = model_calls a + model_calls b.
Proof.
  induction a as [|c a IH]; [reflexivity|].
  destruct c; cbn [List.app model_calls]; rewrite IH; reflexivity.
Qed.

(** X1: when the call of the model raises, the interpreter catches it:
    it returns [None], sets the generation details to [None] and shows one
    error; the raw response, which does not exist yet, is not shown, and for
    a [JSONDecodeError] raised by the call the text shown as the JSON
    content is [N/A]. *)
Theorem model_failure_is_caught
    (model : model_t) (query mode : string) (is_json_error : bool) (w : world) :
  model (prompt_text query mode) = ApiRaises is_json_error ->
  generate_fanout model query mode w =
  (Returns PyNone,
   published PyNone
     (generate_content (prompt_text query mode)
      :: if is_json_error
         then [st_error [T MSG_MALFORMED_JSON; E];
               st_text_area LABEL_BAD_JSON "N/A" 200]
         else [st_error [T MSG_UNEXPECTED; E]]) w).
Proof.
  intros Hm. rewrite generate_fanout_eq, Hm. unfold published.
  destruct is_json_error; run; reflexivity.
Qed.

Lemma model_failure_is_caught_witness :
  generate_fanout (fun _ => ApiRaises false) "q" MODE_SIMPLE W0 =
  (Returns PyNone,
   published PyNone
     [generate_content (prompt_text "q" MODE_SIMPLE);
      st_error [T MSG_UNEXPECTED; E]] W0).
Proof.
  apply (model_failure_is_caught (fun _ => ApiRaises false) "q" MODE_SIMPLE
           false W0).
  reflexivity.
Defined.



(** Calls that neither send a prompt nor show an information box. *)
Definition quiet_call (c : call) : bool :=
  match c with
  | generate_content _ | st_info _ => false
  | _ => true
  end.

Definition quiet (calls : list call) : Prop := forallb quiet_call calls = true.

Lemma quiet_app (a b : list call) : quiet a -> quiet b -> quiet (a ++ b).
Proof. unfold quiet. intros Ha Hb. now rewrite forallb_app, Ha, Hb. Qed.

Lemma quiet_model_calls (calls : list call) : quiet calls -> model_calls calls = 0.
Proof.
  unfold quiet. induction calls as [|c calls IH]; [reflexivity|].
  cbn [forallb]. intros H. apply andb_true_iff in H. destruct H as [Hc H].
  destruct c; try discriminate Hc; cbn [model_calls]; now apply IH.
Qed.

Lemma quiet_no_info (calls : list call) (text : string) :
  quiet calls -> ~ In (st_info text) calls.
Proof.
  unfold quiet. intros H Hin. rewrite forallb_forall in H.
  specialize (H _ Hin). discriminate H.
Qed.

(** Whatever the model does, the interpreter returns. *)
Lemma generate_fanout_returns
    (model : model_t) (query mode : string) (w : world) :
  exists (v details : value) (calls : list call),
    generate_fanout model query mode w =
    (Returns v,
     {| session := {| generation_details := details;
                      results := results (session w) |};
        screen := (screen w ++ generate_content (prompt_text query mode)
                              :: calls)%list |})
    /\ quiet calls
    /\ ((v = PyNone
         /\ (details = generation_details (session w) \/ details = PyNone))
        \/ exists text json_text data,
             model (prompt_text query mode) = ApiText text
             /\ first_to_last_brace text = Some json_text
             /\ loads json_text = Ok (PyDict data)
             /\ v = dict_get "expanded_queries" (PyList []) data
             /\ details = dict_get "generation_details" (PyDict []) data).
Proof.
  destruct (model (prompt_text query mode)) as [text|b] eqn:Hm.
  - destruct (first_to_last_brace text) as [json_text|] eqn:Hj.
    + destruct (decode_and_publish_cases _ _ Hj)
        as [[Hl Hd]|(data & Hl & Hd)];
        eexists _, _, _;
        (split; [rewrite (generate_fanout_text _ _ _ _ _ Hm), Hj;
                 cbv [bind emit]; rewrite Hd;
                 unfold malformed, published; run; reflexivity|]);
        (split; [reflexivity|]).
      * left. split; [reflexivity|now right].
      * right. now exists text, json_text, data.
    + exists PyNone, (generation_details (session w)). eexists.
      split; [rewrite (generate_fanout_text _ _ _ _ _ Hm), Hj; run;
              destruct w as [[d r] sc]; reflexivity|].
      split; [reflexivity|left; split; [reflexivity|now left]].
  - destruct b; eexists _, _, _;
      (split; [rewrite generate_fanout_eq, Hm; run; reflexivity|]);
      (split; [reflexivity|left; split; [reflexivity|now right]]).
Qed.

(** X3: whatever the model does, one interpretation returns (no exception
    leaves it), sends exactly one prompt to the model, that of the query and
    the mode, and never writes the results of the session state. *)
Theorem interpretation_returns_after_one_call
    (model : model_t) (query mode : string) (w : world) :
  exists (v : value) (w' : world),
    generate_fanout model query mode w = (Returns v, w')
    /\ results (session w') = results (session w)
    /\ model_calls (screen w') = S (model_calls (screen w))
    /\ In (generate_content (prompt_text query mode)) (screen w').
Proof.
  destruct (generate_fanout_returns model query mode w)
    as (v & details & calls & Hg & Hq & _).
  eexists _, _. split; [exact Hg|]. cbn [session screen results].
  split; [reflexivity|]. split.
  - rewrite model_calls_app. cbn [model_calls].
    rewrite (quiet_model_calls _ Hq). lia.
  - apply in_or_app. right. now left.
Qed.

(** *** An instance of the schema inside a longer response *)






End ResponseFacts.

(** ** More about a run of the script *)
Module RunFacts.
Import Py Json App PromptFacts ExtractFacts StripFacts InterpreterFacts
       ScriptFacts TableFacts Schema SchemaFacts DecoderFacts ResponseFacts.

(** *** Pieces of the script that only show things *)

(** A piece of the script that leaves the session state alone and makes
    quiet calls only. *)
Definition quietly {A} (m : M A) : Prop :=
  forall w, exists calls, snd (m w) = shown calls w /\ quiet calls.

Lemma quietly_ret {A} (a : A) : quietly (ret a).
Proof.
  intros w. exists []. split; [|reflexivity]. unfold shown. run.
  now rewrite List.app_nil_r; destruct w.
Qed.

Lemma quietly_raise {A} (e : exception) : quietly (@raise A e).
Proof.
  intros w. exists []. split; [|reflexivity]. unfold shown. run.
  now rewrite List.app_nil_r; destruct w.
Qed.

Lemma quietly_unmodelled {A} : quietly (@unmodelled A).
Proof.
  intros w. exists []. split; [|reflexivity]. unfold shown. run.
  now rewrite List.app_nil_r; destruct w.
Qed.

Lemma quietly_emit (c : call) : quiet_call c = true -> quietly (emit c).
Proof.
  intros Hc w. exists [c]. split; [reflexivity|].
  unfold quiet. cbn [forallb]. now rewrite Hc.
Qed.

Lemma quietly_of_option {A} (e : exception) (o : option A) :
  quietly (of_option e o).
Proof. destruct o; [apply quietly_ret|apply quietly_raise]. Qed.

Lemma quietly_covered {A} (o : option A) : quietly (covered o).
Proof. destruct o; [apply quietly_ret|apply quietly_unmodelled]. Qed.

Lemma quietly_bind {A B} (m : M A) (k : A -> M B) :
  quietly m -> (forall a, quietly (k a)) -> quietly (bind m k).
Proof.
  intros Hm Hk w. unfold bind. destruct (Hm w) as (c1 & H1 & Q1).
  destruct (m w) as [[a|e|] w1]; cbn [snd] in H1; subst w1.
  - destruct (Hk a (shown c1 w)) as (c2 & H2 & Q2). exists (c1 ++ c2)%list.
    split; [|now apply quiet_app].
    rewrite H2. unfold shown. cbn [session screen].
    now rewrite List.app_assoc.
  - now exists c1.
  - now exists c1.
Qed.

Ltac quietly_atom :=
  first [ apply quietly_ret | apply quietly_raise | apply quietly_unmodelled
        | apply quietly_emit; reflexivity
        | apply quietly_covered | apply quietly_of_option ].

Ltac quietly_step :=
  first [ quietly_atom | apply quietly_bind; [quietly_atom|intros ?] ].

Lemma quietly_show_plan (st : session_state) : quietly (show_plan st).
Proof.
  unfold show_plan. quietly_step.
  match goal with b : bool |- _ => destruct b end; [|apply quietly_ret].
  quietly_step.
  destruct (generation_details st); try apply quietly_raise.
  do 4 quietly_step.
  destruct (as_int _) as [t|]; [|apply quietly_ret].
  match goal with |- context [Z.eqb ?x ?y] => destruct (Z.eqb x y) end;
    [apply quietly_ret|].
  now apply quietly_emit.
Qed.

Lemma quietly_show_table (st : session_state) : quietly (show_table st).
Proof.
  unfold show_table. do 3 quietly_step.
  apply quietly_bind.
  { destruct (Pandas.empty _); [apply quietly_ret|apply quietly_of_option]. }
  intros df. repeat quietly_step.
Qed.


(** *** What is shown never changes the session state *)

(** The display once the session state has been read. *)
Definition display_for (st : session_state) : M Datatypes.unit :=
  has_results <- covered (truthy (results st)) ;;
  (if has_results then
     emit (st_success MSG_SUCCESS) ;;;
     show_plan st ;;;
     show_table st
   else
     match results st with
     | PyNone => ret tt
     | _ => emit (st_warning [T MSG_NO_QUERIES])
     end) ;;;
  match results st, generation_details st with
  | PyNone, PyNone =>
      emit (st_markdown [T RULE]) ;;;
      emit (st_info WELCOME)
  | _, _ => ret tt
  end ;;;
  emit (st_markdown [T RULE]) ;;;
  emit (st_markdown [T FOOTER]).

Lemma display_eq (w : world) : display w = display_for (session w) w.
Proof. reflexivity. Qed.

Lemma display_for_quiet (st : session_state) :
  results st <> PyNone -> quietly (display_for st).
Proof.
  intros Hr. unfold display_for.
  destruct (results st) eqn:Er; [now elim Hr|..];
    (apply quietly_bind; [apply quietly_covered|]; intros [|];
     (apply quietly_bind;
      [first [ apply quietly_emit; reflexivity
             | apply quietly_bind; [apply quietly_emit; reflexivity|];
               intros _; apply quietly_bind; [apply quietly_show_plan|];
               intros _; apply quietly_show_table ]
      |intros _; cbv iota; repeat quietly_step])).
Qed.

(** Showing the session state leaves it as it is and sends nothing to the
    model; the welcome text is among what is shown exactly when both keys
    hold [None]. *)
Lemma display_shape (st : session_state) (sc : list call) :
  exists (o : outcome Datatypes.unit) (calls : list call),
    display {| session := st; screen := sc |}
    = (o, {| session := st; screen := (sc ++ calls)%list |})
    /\ model_calls calls = 0
    /\ (In (st_info WELCOME) calls
        <-> results st = PyNone /\ generation_details st = PyNone).
Proof.
  destruct (results st) eqn:Er.
  1: { destruct st as [details res]. cbn [results] in Er. subst res.
       rewrite display_no_result. eexists _, _. split; [reflexivity|].
       cbn [results generation_details].
       destruct details; cbn [List.app]; (split; [reflexivity|]);
         (split; [intros H|intros [_ H]; try discriminate H]).
       1: now split.
       1: right; now left.
       all: repeat (destruct H as [H|H]; [discriminate H|]); now elim H. }
  all: destruct (display_for_quiet st) with (w := {| session := st; screen := sc |})
         as (calls & Hs & Hq); [rewrite Er; discriminate|];
       change (display_for st {| session := st; screen := sc |})
         with (display {| session := st; screen := sc |}) in Hs;
       destruct (display {| session := st; screen := sc |}) as [o w'];
       cbn [snd] in Hs; subst w'; exists o, calls;
       (split; [reflexivity|]);
       (split; [now apply quiet_model_calls|]);
       (split; [intros H; now elim (quiet_no_info _ _ Hq H)
               |intros [H _]; discriminate H]).
Qed.


(** *** Pressing the button *)

(** The session state is what a response published: the text between its
    braces decodes to an object, and the two keys hold the fields of that
    object (their defaults if left out). *)
Definition decoded_from (model : model_t) (query mode : string)
    (st : session_state) : Prop :=
  exists text json_text data,
    model (prompt_text query mode) = ApiText text
    /\ first_to_last_brace text = Some json_text
    /\ loads json_text = Ok (PyDict data)
    /\ st = {| generation_details :=
                 dict_get "generation_details" (PyDict []) data;
               results := dict_get "expanded_queries" (PyList []) data |}.

(** The button handler, for a blank query and for any other. *)
Lemma run_button_cases (model : model_t) (user_query mode : string) (w : world) :
  (strip user_query = EmptyString
   /\ run_button model user_query mode w =
      (Returns tt,
       {| session := EMPTY_SESSION;
          screen := (screen w ++ [st_warning [T MSG_EMPTY_QUERY]])%list |}))
  \/ (strip user_query <> EmptyString
      /\ exists (st : session_state) (calls : list call),
           run_button model user_query mode w =
           (Returns tt,
            {| session := st;
               screen := (screen w ++ st_spinner MSG_SPINNER
                            :: generate_content (prompt_text user_query mode)
                            :: calls)%list |})
           /\ quiet calls
           /\ (st = EMPTY_SESSION \/ decoded_from model user_query mode st)).
Proof.
  unfold run_button. destruct (strip user_query) as [|c r] eqn:Hs.
  - left. split; [reflexivity|]. run. reflexivity.
  - right. split; [discriminate|].
    cbv [bind set_generation_details set_results emit].
    cbn [session screen generation_details results].
    match goal with |- context [generate_fanout _ _ _ ?w0] =>
      destruct (generate_fanout_returns model user_query mode w0)
        as (v & details & calls & Hg & Hq & Hc); rewrite Hg
    end.
    cbn [session screen generation_details results] in *.
    eexists _, calls. split; [rewrite <- List.app_assoc; reflexivity|].
    split; [exact Hq|].
    destruct Hc as [[-> [->| ->]]|(text & j & data & Hm & Hj & Hl & -> & ->)];
      [now left|now left|right].
    now exists text, j, data.
Qed.

(** The world a run of the script starts in. *)
Definition start (previous : option session_state) : world :=
  {| session := match previous with Some st => st | None => EMPTY_SESSION end;
     screen := [] |}.

(** X6: a press of the button replaces what the session state held: the
    outcome of the run, the session state it leaves and everything it shows
    are the same whatever an earlier run had published. *)
Theorem press_overwrites_previous_session
    (model : model_t) (user_query mode : string)
    (previous previous' : option session_state) :
  script model user_query mode true previous
  = script model user_query mode true previous'.
Proof.
  unfold script, run_button.
  cbv [bind set_generation_details set_results].
  cbn [session screen generation_details results]. reflexivity.
Qed.

(** X7: after a press the two keys of the session state are published
    together or not at all: either both hold [None] (a blank query, a
    failed call, no JSON region, malformed JSON), or the response decoded to
    an object and they hold its two fields.  No failure leaves the details
    of its response behind. *)
Theorem press_publishes_all_or_nothing
    (model : model_t) (user_query mode : string)
    (previous : option session_state) :
  let st := session (snd (script model user_query mode true previous)) in
  st = EMPTY_SESSION \/ decoded_from model user_query mode st.
Proof.
  unfold script. cbv [bind].
  destruct (run_button_cases model user_query mode (start previous))
    as [[_ Hb]|(_ & st & calls & Hb & _ & Hst)];
    unfold start in Hb; rewrite Hb;
    match goal with |- context [display {| session := ?s; screen := ?sc |}] =>
      destruct (display_shape s sc) as (o & shown_calls & Hd & _); rewrite Hd
    end; cbn [snd session]; [now left|exact Hst].
Qed.

(** The number of prompts a run sends. *)
Lemma script_model_calls
    (model : model_t) (user_query mode : string) (pressed : bool)
    (previous : option session_state) :
  model_calls (screen (snd (script model user_query mode pressed previous)))
  = if pressed
    then match strip user_query with EmptyString => 0 | _ => 1 end
    else 0.
Proof.
  unfold script. cbv [bind]. destruct pressed.
  - destruct (run_button_cases model user_query mode (start previous))
      as [[Hs Hb]|(Hs & st & calls & Hb & Hq & _)];
      unfold start in Hb; rewrite Hb;
      match goal with |- context [display {| session := ?s; screen := ?sc |}] =>
        destruct (display_shape s sc) as (o & shown_calls & Hd & Hc & _);
        rewrite Hd
      end; cbn [snd screen List.app].
    + now rewrite Hs.
    + destruct (strip user_query); [now elim Hs|]. cbn [model_calls].
      rewrite model_calls_app, Hc, (quiet_model_calls _ Hq). reflexivity.
  - cbv [ret].
    match goal with |- context [display {| session := ?s; screen := ?sc |}] =>
      destruct (display_shape s sc) as (o & shown_calls & Hd & Hc & _);
      rewrite Hd
    end. exact Hc.
Qed.

(** X8: a run in which the button was pressed sends one prompt to the
    model when the query has text, the prompt of that query and mode, and
    none when the query is blank; nothing is sent a second time. *)
Theorem press_sends_at_most_one_prompt
    (model : model_t) (user_query mode : string)
    (previous : option session_state) :
  let sc := screen (snd (script model user_query mode true previous)) in
  match strip user_query with
  | EmptyString => model_calls sc = 0
  | _ => model_calls sc = 1
         /\ In (generate_content (prompt_text user_query mode)) sc
  end.
Proof.
  unfold script. cbv [bind].
  destruct (run_button_cases model user_query mode (start previous))
    as [[Hs Hb]|(Hs & st & calls & Hb & Hq & _)];
    unfold start in Hb; rewrite Hb;
    match goal with |- context [display {| session := ?s; screen := ?sc |}] =>
      destruct (display_shape s sc) as (o & shown_calls & Hd & Hc & _);
      rewrite Hd
    end; cbn [snd screen List.app].
  - rewrite Hs. exact Hc.
  - destruct (strip user_query); [now elim Hs|]. split.
    + cbn [model_calls].
      rewrite model_calls_app, Hc, (quiet_model_calls _ Hq). reflexivity.
    + right. now left.
Qed.

(** X9: a run in which the button was not pressed only shows the session
    state: it leaves the state as the run before left it (both keys [None]
    in the first run) and sends nothing to the model, whatever the query
    and the mode are. *)
Theorem rerun_only_shows_the_session
    (model : model_t) (user_query mode : string)
    (previous : option session_state) :
  exists (o : outcome Datatypes.unit) (calls : list call),
    script model user_query mode false previous
    = (o, {| session := session (start previous); screen := calls |})
    /\ model_calls calls = 0.
Proof.
  unfold script. cbv [bind ret].
  destruct (display_shape (session (start previous)) [])
    as (o & calls & Hd & Hc & _).
  exists o, calls. unfold start in *. cbn [session] in *. rewrite Hd.
  now split.
Qed.

(** X10: the welcome text is among what a run shows exactly when the run
    leaves both keys of the session state at [None]: in the first run,
    after a blank query and after a failure, and never beside a result. *)
Theorem welcome_only_in_cleared_state
    (model : model_t) (user_query mode : string) (pressed : bool)
    (previous : option session_state) :
  let w := snd (script model user_query mode pressed previous) in
  In (st_info WELCOME) (screen w)
  <-> results (session w) = PyNone /\ generation_details (session w) = PyNone.
Proof.
  unfold script. cbv [bind]. destruct pressed.
  - destruct (run_button_cases model user_query mode (start previous))
      as [[_ Hb]|(_ & st & calls & Hb & Hq & _)];
      unfold start in Hb; rewrite Hb;
      match goal with |- context [display {| session := ?s; screen := ?sc |}] =>
        destruct (display_shape s sc) as (o & shown_calls & Hd & _ & Hw);
        rewrite Hd
      end; cbn [snd screen session List.app]; rewrite <- Hw.
    + split; [intros [H|H]; [discriminate H|exact H]|now right].
    + split; [|intros H; right; right; apply in_or_app; now right].
      intros [H|[H|H]]; [discriminate H|discriminate H|].
      apply in_app_or in H. destruct H as [H|H]; [|exact H].
      now elim (quiet_no_info _ _ Hq H).
  - cbv [ret].
    match goal with |- context [display {| session := ?s; screen := ?sc |}] =>
      destruct (display_shape s sc) as (o & shown_calls & Hd & _ & Hw);
      rewrite Hd
    end. cbn [snd screen session List.app]. exact Hw.
Qed.

End RunFacts.

(** ** More about what is shown *)
Module DisplayFacts.
Import Py Json App PromptFacts ExtractFacts StripFacts InterpreterFacts
       ScriptFacts TableFacts Schema SchemaFacts DecoderFacts ResponseFacts
       RunFacts.

(** *** Responses that decode to unexpected values *)

(** X11: a response whose list of queries is the JSON value [null] is
    published as [None], the value a failure leaves: the run shows neither
    the success line, nor the warning for an empty list, nor an error, and
    the welcome text only if the generation details are [None] as well. *)
Theorem null_query_list_looks_like_no_result
    (model : model_t) (user_query mode text json_text : string) (data : dict)
    (previous : option session_state) :
  strip user_query <> EmptyString ->
  model (prompt_text user_query mode) = ApiText text ->
  first_to_last_brace text = Some json_text ->
  loads json_text = Ok (PyDict data) ->
  dict_lookup "expanded_queries" data = Some PyNone ->
  let details := dict_get "generation_details" (PyDict []) data in
  script model user_query mode true previous =
  (Returns tt,
   {| session := {| generation_details := details; results := PyNone |};
      screen :=
        ([st_spinner MSG_SPINNER;
          generate_content (prompt_text user_query mode)]
         ++ match details with
            | PyNone => [st_markdown [T RULE]; st_info WELCOME]
            | _ => []
            end
         ++ [st_markdown [T RULE]; st_markdown [T FOOTER]])%list |}).
Proof.
  intros Hq Hm Hj Hl Hnull details. unfold script. cbv [bind].
  rewrite (run_button_decoded _ _ _ _ _ _ _ Hq Hm Hj Hl).
  unfold dict_get at 2. rewrite Hnull. fold details.
  rewrite display_no_result. cbn [screen List.app]. reflexivity.
Qed.

Definition NULL_LIST_RESPONSE : string := quoted
  "{`generation_details`: {`target_query_count`: 3}, `expanded_queries`: null}".

Lemma null_query_list_looks_like_no_result_witness :
  script (fun _ => ApiText NULL_LIST_RESPONSE) "q" MODE_SIMPLE true None =
  (Returns tt,
   {| session := {| generation_details :=
                      PyDict [("target_query_count", PyInt 3)];
                    results := PyNone |};
      screen := [st_spinner MSG_SPINNER;
                 generate_content (prompt_text "q" MODE_SIMPLE);
                 st_markdown [T RULE]; st_markdown [T FOOTER]] |}).
Proof.
  apply (null_query_list_looks_like_no_result
           (fun _ => ApiText NULL_LIST_RESPONSE) "q" MODE_SIMPLE
           NULL_LIST_RESPONSE NULL_LIST_RESPONSE
           [("generation_details", PyDict [("target_query_count", PyInt 3)]);
            ("expanded_queries", PyNone)] None);
    [discriminate|reflexivity|reflexivity|reflexivity|reflexivity].
Defined.







(** *** The table *)




(** *** From the response to the export *)









End DisplayFacts.

(** ** The API key: lines 58 to 80

    The script reads its inputs from the widgets of the side bar, and goes
    on to the button and the display only with a model: without a key, or
    when setting up the model raises, it shows one message and stops.  The
    calls that draw the title and the widgets are the same in every run and
    are left out of the list of calls. *)
Module Setup.
Import App.

(** What the widgets of the side bar return in one run. *)
Record inputs : Type := {
  gemini_key : string;
  user_query : string;
  mode : string;
  pressed : bool
}.

(** [genai.configure] followed by [genai.GenerativeModel], for a key. *)
Inductive genai_result : Type :=
| GenaiModel (model : model_t)
| GenaiRaises.

Definition genai_t := string -> genai_result.

Definition MSG_KEY_FAILED : string := "API Key 設定失敗，請檢查您的 Key 是否正確: ".
Definition MSG_NEED_KEY : string := "請在左側側邊欄輸入您的 Gemini API Key 以開始使用。".

(** How a run ends: the script ran to its end (or to an exception), or
    [st.stop()] ended it. *)
Inductive run_end : Type :=
| Completed (o : outcome unit)
| Stopped.

(** One run of the whole script: how it ends, the session state it leaves
    (none while no run has come to line 162) and the calls it makes. *)
Definition app (genai : genai_t) (inp : inputs)
    (previous : option session_state)
  : run_end * option session_state * list call :=
  match gemini_key inp with
  | EmptyString => (Stopped, previous, [st_info MSG_NEED_KEY])
  | _ =>
      match genai (gemini_key inp) with
      | GenaiRaises => (Stopped, previous, [st_error [T MSG_KEY_FAILED; E]])
      | GenaiModel model =>
          let (o, w) := script model (user_query inp) (mode inp) (pressed inp)
                          previous in
          (Completed o, Some (session w), screen w)
      end
  end.

(** Runs one after the other, each starting from the session state the one
    before left. *)
Fixpoint runs (genai : genai_t) (inps : list inputs)
    (previous : option session_state)
  : option session_state * list (list call) :=
  match inps with
  | [] => (previous, [])
  | inp :: inps' =>
      let '(_, st, calls) := app genai inp previous in
      let (last, shown) := runs genai inps' st in
      (last, calls :: shown)
  end.

End Setup.

Module SetupFacts.
Import Py App PromptFacts StripFacts InterpreterFacts ResponseFacts RunFacts
       Setup.

(** The model a key gives, if the key is not empty and setting up the model
    does not raise. *)
Definition accepted (genai : genai_t) (key : string) : option model_t :=
  match key with
  | EmptyString => None
  | _ => match genai key with
         | GenaiModel model => Some model
         | GenaiRaises => None
         end
  end.

(** X16: a prompt is sent to the model in exactly one case: the key is not
    empty, setting up the model with it did not raise, the button was
    pressed and the query has text; then exactly one is sent.  Without a
    model the run stops after one message, before the session state is
    touched: what an earlier run published is still there. *)
Theorem prompt_needs_key_press_and_query
    (genai : genai_t) (inp : inputs) (previous : option session_state) :
  let '(how, st, calls) := app genai inp previous in
  match accepted genai (gemini_key inp) with
  | None =>
      how = Stopped /\ st = previous
      /\ model_calls calls = 0 /\ List.length calls = 1
  | Some model =>
      how <> Stopped /\ st <> None
      /\ model_calls calls =
         if pressed inp
         then match strip (user_query inp) with EmptyString => 0 | _ => 1 end
         else 0
  end.
Proof.
  unfold app, accepted. destruct (gemini_key inp) as [|c key].
  { now repeat split. }
  destruct (genai (String c key)) as [model|].
  2: { now repeat split. }
  pose proof (script_model_calls model (user_query inp) (mode inp)
                (pressed inp) previous) as H.
  destruct (script model (user_query inp) (mode inp) (pressed inp) previous)
    as [o w].
  cbn [snd] in H. split; [discriminate|split; [discriminate|exact H]].
Qed.

(** X17: what a run published survives runs that stop for want of a model:
    after any number of such runs, the next run with a model and without a
    press shows the session state as the earlier run left it. *)
Theorem stopped_runs_keep_the_session
    (genai : genai_t) (stopped : list inputs) (inp : inputs)
    (model : model_t) (st : session_state) :
  Forall (fun i => accepted genai (gemini_key i) = None) stopped ->
  accepted genai (gemini_key inp) = Some model ->
  pressed inp = false ->
  exists (shown_before : list (list call)) (o : outcome unit)
         (calls : list call),
    runs genai (stopped ++ [inp]) (Some st)
    = (Some st, shown_before ++ [calls])%list
    /\ display {| session := st; screen := [] |}
       = (o, {| session := st; screen := calls |})
    /\ Forall (fun c => model_calls c = 0 /\ List.length c = 1) shown_before.
Proof.
  intros Hs Ha Hp. induction Hs as [|i stopped Hi Hs IH].
  - cbn [List.app runs]. unfold app. unfold accepted in Ha.
    destruct (gemini_key inp) as [|c key]; [discriminate Ha|].
    destruct (genai (String c key)) as [m|]; [|discriminate Ha].
    rewrite Hp. unfold script. cbv [bind ret].
    destruct (display_shape st []) as (o & calls & Hd & _).
    cbn [session] in *. rewrite Hd. cbn [session screen List.app].
    exists [], o, calls. split; [reflexivity|split; [reflexivity|constructor]].
  - destruct IH as (before & o & calls & Hr & Hd & Hb).
    cbn [List.app runs]. unfold app at 1. unfold accepted in Hi.
    destruct (gemini_key i) as [|c key].
    + rewrite Hr. exists ([st_info MSG_NEED_KEY] :: before), o, calls.
      split; [reflexivity|split; [exact Hd|]].
      constructor; [now split|exact Hb].
    + destruct (genai (String c key)) as [m|]; [discriminate Hi|].
      rewrite Hr. exists ([st_error [T MSG_KEY_FAILED; E]] :: before), o, calls.
      split; [reflexivity|split; [exact Hd|]].
      constructor; [now split|exact Hb].
Qed.

Definition NO_GENAI : genai_t :=
  fun key => if String.eqb key "good" then GenaiModel (fun _ => ApiRaises false)
             else GenaiRaises.

Lemma stopped_runs_keep_the_session_witness :
  exists (shown_before : list (list call)) (o : outcome unit)
         (calls : list call),
    runs NO_GENAI
      ([{| gemini_key := EmptyString; user_query := "q"; mode := MODE_SIMPLE;
           pressed := true |};
        {| gemini_key := "bad"; user_query := "q"; mode := MODE_SIMPLE;
           pressed := true |}]
       ++ [{| gemini_key := "good"; user_query := "q"; mode := MODE_SIMPLE;
              pressed := false |}])
      (Some {| generation_details := PyNone; results := PyList [] |})
    = (Some {| generation_details := PyNone; results := PyList [] |},
       shown_before ++ [calls])%list
    /\ display {| session := {| generation_details := PyNone;
                                results := PyList [] |};
                  screen := [] |}
       = (o, {| session := {| generation_details := PyNone;
                              results := PyList [] |};
                screen := calls |})
    /\ Forall (fun c => model_calls c = 0 /\ List.length c = 1) shown_before.
Proof.
  apply (stopped_runs_keep_the_session NO_GENAI
           [{| gemini_key := EmptyString; user_query := "q";
               mode := MODE_SIMPLE; pressed := true |};
            {| gemini_key := "bad"; user_query := "q"; mode := MODE_SIMPLE;
               pressed := true |}]
           {| gemini_key := "good"; user_query := "q"; mode := MODE_SIMPLE;
              pressed := false |}
           (fun _ => ApiRaises false)
           {| generation_details := PyNone; results := PyList [] |}).
  - repeat constructor.
  - reflexivity.
  - reflexivity.
Defined.

End SetupFacts.

(** ** More about the prompt: the numbers of the instruction *)
Module InstructionFacts.
Import App PromptFacts.

Lemma instruction_simple_bands (q mode : string) :
  contains "生成約 10-12 個查詢" (instruction_simple q mode 10)
  /\ contains "目標可以設定在 13-15 個查詢" (instruction_simple q mode 10).
Proof.
  unfold instruction_simple. split.
  - exists ("首先，分析使用者查詢：「" ++ q ++ "」。基於其複雜度和「" ++ mode ++ "」模式，"
            ++ "**您必須決定一個最佳的查詢生成數量。** "
            ++ "這個數字**至少需要是 10**。 " ++ "對於一個直接的查詢，").
    eexists. rewrite !append_assoc. reflexivity.
  - exists ("首先，分析使用者查詢：「" ++ q ++ "」。基於其複雜度和「" ++ mode ++ "」模式，"
            ++ "**您必須決定一個最佳的查詢生成數量。** "
            ++ "這個數字**至少需要是 10**。 "
            ++ "對於一個直接的查詢，生成約 10-12 個查詢可能就足夠了。 "
            ++ "如果查詢包含幾個不同面向或常見的後續問題，").
    eexists. rewrite !append_assoc. reflexivity.
Qed.

Lemma instruction_complex_band (q mode : string) :
  contains "可能達到 25-30 個查詢" (instruction_complex q mode 20).
Proof.
  unfold instruction_complex.
  exists ("首先，分析使用者查詢：「" ++ q ++ "」。基於其複雜度和「" ++ mode ++ "」模式，"
          ++ "**您必須決定一個最佳的查詢生成數量。** "
          ++ "這個數字**至少需要是 20**。 "
          ++ "對於需要從多角度、子主題、比較或更深層含義進行探索的多面向查詢，"
          ++ "您應該生成更全面的集合，").
  eexists. rewrite !append_assoc. reflexivity.
Qed.

(** X18: the ranges the instruction quotes are computed from the minimum
    of the mode: the prompt for the simple mode speaks of 10-12 and of
    13-15 queries, the prompt for any other mode of 25-30 queries. *)
Theorem instruction_ranges_follow_the_minimum (q mode : string) :
  exists prompt,
    get_query_fanout_prompt q mode = Some prompt
    /\ if String.eqb mode MODE_SIMPLE
       then contains "生成約 10-12 個查詢" prompt
            /\ contains "目標可以設定在 13-15 個查詢" prompt
       else contains "可能達到 25-30 個查詢" prompt.
Proof.
  exists (prompt_text q mode). split; [apply get_query_fanout_prompt_text|].
  destruct (String.eqb mode MODE_SIMPLE) eqn:E.
  - split; apply prompt_contains_instruction; unfold instruction; rewrite E;
      apply instruction_simple_bands.
  - apply prompt_contains_instruction. unfold instruction. rewrite E.
    apply instruction_complex_band.
Qed.

End InstructionFacts.
